(** * The hybrid-agent tutorial notebook, as a trace-producing program

    The notebook [hybrid-agent-tutorial.ipynb] owns no algorithm: each code
    cell is a short sequence of calls into imported libraries (dotenv,
    getpass, tavily, langchain, langgraph).  The embedding below keeps that
    shape.  A cell is a computation in a state, trace and exception monad:

    - the state holds [os.environ] and the external world (files, network,
      clock, persisted vector store), on which only the libraries act;
    - the trace records every access to [os.environ] and every call into
      a library, console output included, together with the exception it
      raised, if any;
    - an exception ends the computation, as the notebook has no [try].

    What a library answers is not fixed here: a [Library] gives, for each
    call and each world, the exception raised, the next world and the value
    returned.  Statements quantify over all libraries.

    Conventions of the model:
    - a handle (client, vector store, retriever, tool, model, prompt,
      agent) is the record of its constructor's arguments; messages and
      prompt entries are plain data;
    - the variables a cell defines are its result, the variables it uses
      are its arguments;
    - [print], [pretty_print] and [Markdown] are calls like the others,
      to the console; what [Markdown(text)] makes the front end show is the
      library's business (it loads the text from a URL or a file when
      [text] names one); [import] statements are not modelled;
    - a text is the byte string of its UTF-8 encoding; an assignment that
      [os.environ] refuses raises, stores nothing and leaves no event;
    - the generator returned by [stream] is the list of snapshots it has to
      yield; each item is obtained by a call [stream_next], which may raise;
    - the two shell cells ([!echo ... >> .env], [%pip install]) act on the
      world before the Python cells and are not part of the run. *)

From Stdlib Require Import ZArith Lia List Ascii.
From stdpp Require Import base strings gmap list pretty.

Local Open Scope Z_scope.

(** ** Python values *)

(** A Python exception, by class name. *)
Definition exn := string.

(** The line feed of the prompt ["TAVILY_API_KEY:\n"] and of [print("\n")]. *)
Definition LF : string := String (ascii_of_nat 10) EmptyString.

(** The double quote, for the quotations inside the system prompt. *)
Definition DQ : string := String (ascii_of_nat 34) EmptyString.

(** A chat message: either a plain tuple (the [isinstance(message, tuple)]
    case) or a message object such as [HumanMessage]. *)
Inductive AnyMessage :=
  | TupleMessage (role content : string)
  | ObjectMessage (type content : string).

Definition HumanMessage (content : string) : AnyMessage :=
  ObjectMessage "human" content.

Definition is_tuple (m : AnyMessage) : bool :=
  match m with TupleMessage _ _ => true | ObjectMessage _ _ => false end.

(** [message.content]: an attribute of message objects, not of tuples. *)
Definition content_of (m : AnyMessage) : option string :=
  match m with TupleMessage _ _ => None | ObjectMessage _ c => Some c end.

(** One item of the agent's stream: the state dictionary, of which the
    notebook reads the key ["messages"]. *)
Record snapshot := { messages : list AnyMessage }.

(** A retrieved document. *)
Record document := { page_content : string }.

(** ** Handles to library objects

    A handle is what its constructor was given: the notebook never looks
    inside one, it only passes it on. *)

Record client := TavilyClient { client_api_key : option string }.

Inductive embeddings := OpenAIEmbeddings.

Record vector_store := Chroma {
  collection_name : string;
  embedding_function : embeddings;
  persist_directory : string }.

(** [vector_store.as_retriever()] *)
Record retriever := as_retriever { retriever_store : vector_store }.

Inductive tool :=
  | TavilySearch (max_results : Z) (topic : string)
  | TavilyExtract (extract_depth : string)
  | TavilyCrawl
  | as_tool (r : retriever) (name description : string).

Record chat_model := ChatOpenAI {
  model : string;
  api_key : option string }.

(** An entry of [ChatPromptTemplate.from_messages]. *)
Inductive prompt_entry :=
  | RoleEntry (role text : string)
  | MessagesPlaceholder (variable_name : string).

Record prompt_template := from_messages { entries : list prompt_entry }.

(** What [create_react_agent] was called with. *)
Record agent := create_react_agent {
  agent_model : chat_model;
  agent_tools : list tool;
  agent_prompt : prompt_template;
  agent_name : string }.

Inductive object :=
  | OClient (c : client)
  | OEmbeddings (e : embeddings)
  | OVectorStore (v : vector_store)
  | ORetriever (r : retriever)
  | OTool (t : tool)
  | OModel (m : chat_model)
  | OPrompt (p : prompt_template)
  | OAgent (a : agent).

(** ** Calls, console output and events *)

(** What goes to the console: [print] of a text or of a message,
    [message.pretty_print()], and [Markdown(text)], the display object the
    display cell evaluates to, given by the text it was constructed
    from. *)
Inductive output :=
  | print_text (s : string)
  | print_message (m : AnyMessage)
  | pretty_print (m : AnyMessage)
  | Markdown (s : string).

(** The calls into libraries, the console among them.
    [vector_store_write] stands for the writing
    methods of a vector store ([add_documents], [add_texts], [delete],
    [update_document], [reset_collection], ...): the interface has them,
    and part of what is proved is that the notebook never issues one. *)
Inductive call :=
  | load_dotenv_call
  | getpass_call (prompt : string)
  | construct (o : object)
  | retriever_invoke (r : retriever) (query : string)
  | datetime_today
  | agent_stream (a : agent) (inputs : list AnyMessage) (stream_mode : string)
  | stream_next (a : agent)
  | console (o : output)
  | vector_store_write (v : vector_store) (method : string).

Inductive event :=
  | EnvRead (key : string)
  | EnvWrite (key value : string)
  | Called (c : call) (raised : option exn).

(** A console output that went through. *)
Definition printed (o : output) : event := Called (console o) None.

(** A calendar date and time, as [datetime.datetime.today()] returns. *)
Record datetime := {
  year : Z; month : Z; day : Z;
  hour : Z; minute : Z; second : Z; microsecond : Z }.

(** ** [strftime("%A, %B %d, %Y")]

    The format of the notebook, in the C locale, for the proleptic Gregorian
    dates of Python ([1 <= year <= 9999]).  The weekday follows
    [date.weekday()]: the ordinal of the day, Monday being 0. *)

Definition is_leap (y : Z) : bool :=
  (y mod 4 =? 0) && (negb (y mod 100 =? 0) || (y mod 400 =? 0)).

Definition days_in_month (y m : Z) : Z :=
  if m =? 2 then (if is_leap y then 29 else 28)
  else if (m =? 4) || (m =? 6) || (m =? 9) || (m =? 11) then 30
  else 31.

Definition days_before_year (y : Z) : Z :=
  let y' := y - 1 in y' * 365 + y' / 4 - y' / 100 + y' / 400.

Fixpoint days_before_month_from (y : Z) (m : nat) : Z :=
  match m with
  | O => 0
  | S m' => days_before_month_from y m' + days_in_month y (Z.of_nat m)
  end.

(** Days of the year before the first day of month [m]. *)
Definition days_before_month (y m : Z) : Z :=
  days_before_month_from y (Z.to_nat (m - 1)).

Definition toordinal (d : datetime) : Z :=
  days_before_year (year d) + days_before_month (year d) (month d) + day d.

Definition weekday (d : datetime) : Z := (toordinal d + 6) mod 7.

Definition valid_date (d : datetime) : bool :=
  (1 <=? year d) && (year d <=? 9999) &&
  (1 <=? month d) && (month d <=? 12) &&
  (1 <=? day d) && (day d <=? days_in_month (year d) (month d)).

Definition same_date (d1 d2 : datetime) : Prop :=
  year d1 = year d2 /\ month d1 = month d2 /\ day d1 = day d2.

(** [%A] *)
Definition weekday_name (w : Z) : string :=
  if w =? 0 then "Monday" else if w =? 1 then "Tuesday"
  else if w =? 2 then "Wednesday" else if w =? 3 then "Thursday"
  else if w =? 4 then "Friday" else if w =? 5 then "Saturday"
  else "Sunday".

(** [%B] *)
Definition month_name (m : Z) : string :=
  if m =? 1 then "January" else if m =? 2 then "February"
  else if m =? 3 then "March" else if m =? 4 then "April"
  else if m =? 5 then "May" else if m =? 6 then "June"
  else if m =? 7 then "July" else if m =? 8 then "August"
  else if m =? 9 then "September" else if m =? 10 then "October"
  else if m =? 11 then "November" else "December".

(** [%d]: the day of the month on two digits. *)
Definition two_digits (n : Z) : string :=
  String (pretty_N_char (Z.to_N (n / 10)))
    (String (pretty_N_char (Z.to_N (n mod 10))) EmptyString).

(** [strftime("%A, %B %d, %Y")] *)
Definition strftime (d : datetime) : string :=
  weekday_name (weekday d) +:+ ", " +:+ month_name (month d) +:+ " " +:+
  two_digits (day d) +:+ ", " +:+ pretty (year d).

(** Whether the character [c] occurs in [s]. *)
Fixpoint has_char (c : ascii) (s : string) : bool :=
  match s with
  | EmptyString => false
  | String c' s' => if Ascii.eqb c c' then true else has_char c s'
  end.

(** ** What [os.environ] accepts

    A text is held as the bytes of its UTF-8 encoding; a lone surrogate,
    which a Python [str] can hold and UTF-8 cannot, as the three bytes that
    [surrogatepass] writes for it: [ED], a byte from [A0] to [BF], and one
    more.  [os.environ] encodes names and values with the file system
    encoding, UTF-8 with [surrogateescape]: of the lone surrogates it takes
    those from U+DC80 to U+DCFF (second byte [B2] or [B3]) and refuses the
    others. *)

Definition NUL : ascii := ascii_of_nat 0.

(** [c], [d] begin a surrogate that the file system encoding refuses. *)
Definition refused_surrogate (c d : ascii) : bool :=
  let c := Z.of_nat (nat_of_ascii c) in
  let d := Z.of_nat (nat_of_ascii d) in
  (c =? 237) && (160 <=? d) && (d <=? 191) && negb ((d =? 178) || (d =? 179)).

(** The text holds a character that [os.environ] cannot encode. *)
Fixpoint unencodable (s : string) : bool :=
  match s with
  | EmptyString => false
  | String c rest =>
      match rest with
      | String d _ => refused_surrogate c d
      | EmptyString => false
      end || unencodable rest
  end.

(** The exception of [os.environ[key] = value], if it raises one:
    [UnicodeEncodeError] when the name or the value cannot be encoded,
    then [ValueError] on a NUL byte, which a C string of the environment
    cannot hold, and on a name with [=], [OSError] on the empty name. *)
Definition environ_set_error (key value : string) : option exn :=
  if unencodable key || unencodable value then Some "UnicodeEncodeError"
  else if has_char NUL key || has_char NUL value then Some "ValueError"
  else if has_char "=" key then Some "ValueError"
  else if String.eqb key EmptyString then Some "OSError"
  else None.

(** ** The system prompt

    The f-string of the agent cell is [prompt_head], then [{today}], then
    [prompt_tail]. *)

Definition prompt_head : string :=
  "
        You are a ReAct-style research agent equipped with the following tools:

        * **Tavily Web Search**
        * **Tavily Web Extract**
        * **Tavily Web Crawl**
        * **Internal Vector Search** (for proprietary CRM data)

        Your mission is to conduct comprehensive, accurate, and up-to-date research, using a combination of real-time public web information and internal enterprise knowledge.  All answers must be grounded in retrieved information from the tools provided. You are not permitted to make up information or rely on prior knowledge.

        **Today's Date:** ".

Definition prompt_tail : string :=
  "

        **Available Tools:**

        1. **Tavily Web Search**

        * **Purpose:** Retrieve relevant web pages based on a query.
        * **Usage:** Provide a search query to receive up to 10 semantically ranked results, each containing the title, URL, and a content snippet.
        * **Best Practices:**
            * Use specific queries to narrow down results.
                * Example: "
  +:+ DQ +:+ "OpenAI's latest product release"
  +:+ DQ +:+ " and "
  +:+ DQ +:+ "OpenAI's headquarters location"
  +:+ DQ +:+ " rather than "
  +:+ DQ +:+ "OpenAI's latest product release and headquarters location"
  +:+ DQ +:+ "
            * Optimize searches using parameters such as `search_depth`, `time_range`, `include_domains`, and `include_raw_content`.
            * Break down complex queries into specific, focused sub-queries.

        2. **Tavily Web Crawl**

        * **Purpose:** Explore a website's structure and gather content from linked pages for deep research and information discovery from a single source.
        * **Usage:** Input a base URL to crawl, specifying parameters such as `max_depth`, `max_breadth`, and `extract_depth`.
        * **Best Practices:**

            * Begin with shallow crawls and progressively increase depth.
            * Utilize `select_paths` or `exclude_paths` to focus the crawl.
            * Set `extract_depth` to "
  +:+ DQ +:+ "advanced"
  +:+ DQ +:+ " for comprehensive extraction.

        3. **Tavily Web Extract**

        * **Purpose:** Extract the full content from specific web pages.
        * **Usage:** Provide URLs to retrieve detailed content.
        * **Best Practices:**

            * Set `extract_depth` to "
  +:+ DQ +:+ "advanced"
  +:+ DQ +:+ " for detailed content, including tables and embedded media.
            * Enable `include_images` if image data is necessary.

        4. **Internal Vector Search**

        * **Purpose:** Search the proprietary CRM knowledge base.
        * **Usage:** Submit a natural language query to retrieve relevant context from the CRM vector store. Contains context about key accounts like Meta, Apple, Google, Amazon, Microsoft, and Tesla.
        * **Best Practices:**
            * When possible, refer to specific information, such as names, dates, product usage, or meetings.
            

        **Guidelines for Conducting Research:**

        * You may not answer questions based on prior knowledge or assumptions.
        * **Citations:** Always support findings with source URLs, clearly provided as in-text citations.
        * **Accuracy:** Rely solely on data obtained via provided tools (web or vector store) —never fabricate information.
        * **If none of the tools return useful information, respond:**
            * "
  +:+ DQ +:+ "I'm sorry, but none of the available tools provided sufficient information to answer this question."
  +:+ DQ +:+ "

        **Research Workflow:**

        * **Thought:** Consider necessary information and next steps.
        * **Action:** Select and execute appropriate tools.
        * **Observation:** Analyze obtained results.
        **IMPORTANT: Repeat Thought/Action/Observation cycles as needed. You MUST only respond to the user once you have gathered all the information you need.**
        * **Final Answer:** Synthesize and present findings with citations in markdown format.
        
        **Example Workflow:**

        **Workflow 4: Combine Web Tools and Vector Search**

        **Question:** What has Apple publicly shared about their AI strategy, and do we have any internal notes on recent meetings with them?

        * **Thought:** I’ll start by looking for Apple’s public statements on AI using a search.
        * **Action:** Tavily Web Search with the query "
  +:+ DQ +:+ "Apple AI strategy 2024"
  +:+ DQ +:+ " and `time_range` set to "
  +:+ DQ +:+ "month"
  +:+ DQ +:+ ".
        * **Observation:** Found a recent article from Apple’s newsroom and a keynote transcript.
        * **Thought:** I want to read the full content of Apple’s keynote.
        * **Action:** Tavily Web Extract on the URL from the search result.
        * **Observation:** Extracted detailed content from Apple’s announcement.
        * **Thought:** Now, I’ll check our internal CRM data for recent meeting notes with Apple.
        * **Action:** Internal Vector Search with the query "
  +:+ DQ +:+ "recent Apple meetings AI strategy"
  +:+ DQ +:+ ".
        * **Observation:** Retrieved notes from a Q2 strategy sync with Apple’s enterprise team.
        * **Final Answer:** Synthesized response combining public and internal data, with citations.
        ---

        You will now receive a research question from the user:
        ".

Definition system_prompt (today : string) : string :=
  prompt_head +:+ today +:+ prompt_tail.

(** The [description] of the vector search tool. *)
Definition vector_search_description : string :=
  LF +:+ "    Perform a vector search on our company's CRM data." +:+ LF +:+ "    ".

(** The two questions put to the agent. *)
Definition first_question : string :=
  "Search for the latest news on google relevant to our current CRM data on them".

Definition second_question : string :=
  "Check for the Google Deal size and find the latest earnings report for them to validate if they are in spending spree".

(** How a computation ends: with a value or with an exception. *)
Inductive result (A : Type) :=
  | Ok (a : A)
  | Raise (e : exn).
Arguments Ok {A} a.
Arguments Raise {A} e.

(** ** Reading a trace *)

Definition call_of (e : event) : option call :=
  match e with Called c _ => Some c | _ => None end.

(** The calls into libraries, in order, raising or not. *)
Definition calls (evs : list event) : list call := omap call_of evs.

Definition raises (e : event) : bool :=
  match e with Called _ (Some _) => true | _ => false end.


(** The prompts shown by [getpass]. *)
Definition prompts (evs : list event) : list string :=
  omap (fun e => match e with Called (getpass_call p) _ => Some p | _ => None end) evs.

(** The console output: what was written by calls that returned. *)
Definition outputs (evs : list event) : list output :=
  omap (fun e => match e with
                 | Called (console o) None => Some o
                 | _ => None
                 end) evs.

(** The message a console output shows, for the two ways of the loop. *)
Definition shown (o : output) : option AnyMessage :=
  match o with
  | print_message m => Some m
  | pretty_print m => Some m
  | print_text _ => None
  | Markdown _ => None
  end.

(** The console output [o] shows the last message of the snapshot, by
    [print] if it is a tuple and by [pretty_print] if not. *)
Definition shows (o : output) (snap : snapshot) : Prop :=
  exists m, last (messages snap) = Some m /\
            o = if is_tuple m then print_message m else pretty_print m.

(** The tool handle an event constructs, if it constructs one. *)
Definition tool_built (e : event) : option tool :=
  match e with Called (construct (OTool t)) _ => Some t | _ => None end.

(** The tool handles whose constructor was called. *)
Definition tools_built (evs : list event) : list tool := omap tool_built evs.

Definition agent_built (e : event) : option agent :=
  match e with Called (construct (OAgent a)) _ => Some a | _ => None end.

(** The agents whose factory was called. *)
Definition agents_built (evs : list event) : list agent := omap agent_built evs.

Definition store_built (e : event) : option vector_store :=
  match e with Called (construct (OVectorStore v)) _ => Some v | _ => None end.

(** The vector stores that were opened. *)
Definition stores_built (evs : list event) : list vector_store :=
  omap store_built evs.

Definition stream_call (e : event) : option (agent * list AnyMessage * string) :=
  match e with Called (agent_stream a i m) _ => Some (a, i, m) | _ => None end.

(** The calls of [agent.stream]. *)
Definition stream_calls (evs : list event) : list (agent * list AnyMessage * string) :=
  omap stream_call evs.

Definition clock_read (e : event) : option unit :=
  match e with Called datetime_today _ => Some tt | _ => None end.

(** The number of readings of the clock. *)
Definition clock_reads (evs : list event) : nat := length (omap clock_read evs).

(** An event that constructs no tool, no agent and no vector store and
    does not read the clock. *)
Definition quiet (e : event) : Prop :=
  tool_built e = None /\ agent_built e = None /\
  store_built e = None /\ clock_read e = None.

Inductive tool_kind := web_search | web_crawl | web_extract | vector_retrieval.

Definition kind_of (t : tool) : tool_kind :=
  match t with
  | TavilySearch _ _ => web_search
  | TavilyCrawl => web_crawl
  | TavilyExtract _ => web_extract
  | as_tool _ _ _ => vector_retrieval
  end.

(** The library function behind a call, without its arguments. *)
Definition call_name (c : call) : string :=
  match c with
  | load_dotenv_call => "load_dotenv"
  | getpass_call _ => "getpass.getpass"
  | construct (OClient _) => "TavilyClient"
  | construct (OEmbeddings _) => "OpenAIEmbeddings"
  | construct (OVectorStore _) => "Chroma"
  | construct (ORetriever _) => "as_retriever"
  | construct (OTool (TavilySearch _ _)) => "TavilySearch"
  | construct (OTool (TavilyExtract _)) => "TavilyExtract"
  | construct (OTool TavilyCrawl) => "TavilyCrawl"
  | construct (OTool (as_tool _ _ _)) => "as_tool"
  | construct (OModel _) => "ChatOpenAI"
  | construct (OPrompt _) => "ChatPromptTemplate.from_messages"
  | construct (OAgent _) => "create_react_agent"
  | retriever_invoke _ _ => "invoke"
  | datetime_today => "datetime.datetime.today"
  | agent_stream _ _ _ => "stream"
  | stream_next _ => "next"
  | console (print_text _) => "print"
  | console (print_message _) => "print"
  | console (pretty_print _) => "pretty_print"
  | console (Markdown _) => "Markdown"
  | vector_store_write _ method => method
  end.

(** What an event does, without the data it carries. *)
Definition action (e : event) : string :=
  match e with
  | EnvRead _ => "os.environ.get"
  | EnvWrite _ _ => "os.environ.__setitem__"
  | Called c _ => call_name c
  end.

Definition is_write (c : call) : bool :=
  match c with vector_store_write _ _ => true | _ => false end.

(** The persisted collection the notebook opens. *)
Definition crm_store : vector_store :=
  Chroma "crm" OpenAIEmbeddings "supplemental/db".

Definition credential (k : string) : Prop :=
  k = "TAVILY_API_KEY" \/ k = "OPENAI_API_KEY".

(** The events the notebook can produce: it reads and writes the two
    credentials only, opens and queries the collection [crm_store] only,
    calls no writing method, and constructs and runs agents on the model
    "gpt-4.1" only. *)
Definition notebook_event (e : event) : Prop :=
  match e with
  | EnvRead k => credential k
  | EnvWrite k _ => credential k
  | Called (vector_store_write _ _) _ => False
  | Called (construct (OVectorStore v)) _ => v = crm_store
  | Called (construct (ORetriever r)) _ => retriever_store r = crm_store
  | Called (construct (OTool (as_tool r _ _))) _ => retriever_store r = crm_store
  | Called (retriever_invoke r _) _ => retriever_store r = crm_store
  | Called (construct (OAgent a)) _ => model (agent_model a) = "gpt-4.1"
  | Called (agent_stream a _ _) _ => model (agent_model a) = "gpt-4.1"
  | Called (stream_next a) _ => model (agent_model a) = "gpt-4.1"
  | Called _ _ => True
  end.

(** The exceptions the interpreter raises on the notebook's own
    expressions: indexing an empty list, an unbound name, a missing
    attribute, and an assignment that [os.environ] refuses. *)
Definition interpreter_error (e : exn) : Prop :=
  e = "IndexError" \/ e = "NameError" \/ e = "AttributeError" \/
  e = "UnicodeEncodeError" \/ e = "ValueError" \/ e = "OSError".

(** A trace and a result on which no exception was caught: no call raised
    in a run that completed; in a run that ended in [e], either the last
    event is the call that raised [e] and no earlier one raised, or [e]
    is the interpreter's and no call raised. *)
Definition uncaught {A} (evs : list event) (r : result A) : Prop :=
  match r with
  | Ok _ => Forall (fun ev => raises ev = false) evs
  | Raise e =>
      (exists pre c, evs = pre ++ [Called c (Some e)] /\
                     Forall (fun ev => raises ev = false) pre) \/
      (interpreter_error e /\ Forall (fun ev => raises ev = false) evs)
  end.

(** ** Straight-line code

    A step of straight-line code: a reading of [os.environ], an assignment
    to it, or a call into a library.  A list of steps has no way to test
    anything. *)
Inductive step :=
  | Read (key : string)
  | Store (key value : string)
  | Call (c : call).

(** The steps of the loop over the items of a stream.  For each item the
    generator is asked for it and its last message is printed, by [print]
    if it is a tuple and by [pretty_print] if not; a last call finds the
    generator exhausted.  The steps stop at an item without messages. *)
Fixpoint loop_steps (a : agent) (items : list snapshot) : list step :=
  match items with
  | [] => [Call (stream_next a)]
  | snap :: rest =>
      Call (stream_next a) ::
      match last (messages snap) with
      | None => []
      | Some m =>
          Call (console (if is_tuple m then print_message m else pretty_print m))
          :: loop_steps a rest
      end
  end.

(** How that loop ends when no call raises: with [IndexError] at the
    first item without messages, and otherwise with the variable [message]
    bound to the last message of the last item, if there is one. *)
Fixpoint loop_end (items : list snapshot) (message : option AnyMessage)
  : result (option AnyMessage) :=
  match items with
  | [] => Ok message
  | snap :: rest =>
      match last (messages snap) with
      | None => Raise "IndexError"
      | Some m => loop_end rest (Some m)
      end
  end.

(** ** The libraries and the world they act on *)

Class Library (W : Type) := {
  (** the exception a call raises in a world, if any *)
  lib_raise : call -> W -> option exn;
  (** the world after a call *)
  lib_next : call -> W -> W;
  (** [load_dotenv()]: the new [os.environ] *)
  lib_dotenv : W -> gmap string string -> gmap string string;
  (** [getpass.getpass(prompt)]: what the user types *)
  lib_getpass : string -> W -> string;
  (** [datetime.datetime.today()] *)
  lib_today : W -> datetime;
  (** [retriever.invoke(query)] *)
  lib_retrieve : retriever -> string -> W -> list document;
  (** [agent.stream(inputs, stream_mode)]: the snapshots the generator
      has to yield; whether it gets to yield each of them is decided by
      [lib_raise] on [stream_next], item after item *)
  lib_stream : agent -> list AnyMessage -> string -> W -> list snapshot;
}.

(** ** The monad *)

Section Notebook.

Context {W : Type} {lib : Library W}.

Record state := { environ : gmap string string; world : W }.

Definition M (A : Type) : Type := state -> state * list event * result A.

Definition ret {A} (a : A) : M A := fun s => (s, [], Ok a).

Definition bind {A B} (m : M A) (k : A -> M B) : M B := fun s =>
  match m s with
  | (s1, ev1, Ok a) =>
      match k a s1 with (s2, ev2, r) => (s2, ev1 ++ ev2, r) end
  | (s1, ev1, Raise e) => (s1, ev1, Raise e)
  end.

(** An exception raised by the interpreter itself ([IndexError],
    [NameError], [AttributeError]), not by a library. *)
Definition raise {A} (e : exn) : M A := fun s => (s, [], Raise e).

(** A call into a library, answering [answer w] in world [w]. *)
Definition perform {A} (c : call) (answer : W -> A) : M A := fun s =>
  let s' := {| environ := environ s; world := lib_next c (world s) |} in
  match lib_raise c (world s) with
  | Some e => (s', [Called c (Some e)], Raise e)
  | None => (s', [Called c None], Ok (answer (world s)))
  end.

(** Writing to the console. *)
Definition emit (o : output) : M unit := perform (console o) (fun _ => tt).

Notation "x <- m ;; k" := (bind m (fun x => k))
  (at level 100, m at next level, right associativity).
Notation "m ;;; k" := (bind m (fun _ => k))
  (at level 100, right associativity).

(** ** The interpreter's part: [os.environ], truthiness, loops *)

(** [os.environ.get(key)] and [os.getenv(key)] *)
Definition environ_get (key : string) : M (option string) := fun s =>
  (s, [EnvRead key], Ok (environ s !! key)).

(** [os.environ[key] = value]: stores the value, or raises and stores
    nothing when [os.environ] refuses the name or the value. *)
Definition environ_set (key value : string) : M unit := fun s =>
  match environ_set_error key value with
  | Some e => (s, [], Raise e)
  | None =>
      ({| environ := <[key:=value]> (environ s); world := world s |},
       [EnvWrite key value], Ok tt)
  end.

(** Truth value of an optional string: [None] and [""] are false. *)
Definition truthy (v : option string) : bool :=
  match v with
  | Some (String _ _) => true
  | Some EmptyString => false
  | None => false
  end.

Definition update_environ (f : gmap string string -> gmap string string) : M unit :=
  fun s => ({| environ := f (environ s); world := world s |}, [], Ok tt).

Definition load_dotenv : M unit :=
  f <- perform load_dotenv_call lib_dotenv ;; update_environ f.

Definition getpass (prompt : string) : M string :=
  perform (getpass_call prompt) (lib_getpass prompt).

(** A constructor or factory of a library, returning the handle [a]. *)
Definition build {A} (inj : A -> object) (a : A) : M A :=
  perform (construct (inj a)) (fun _ => a).

(** [for x in xs: body] over a list already in memory *)
Fixpoint for_each {A} (xs : list A) (body : A -> M unit) : M unit :=
  match xs with
  | [] => ret tt
  | x :: rest => body x ;;; for_each rest body
  end.

(** [s["messages"][-1]] *)
Definition last_message (s : snapshot) : M AnyMessage :=
  match last (messages s) with
  | Some m => ret m
  | None => raise "IndexError"
  end.

(** ** The code cells *)

(** [if not os.environ.get(key): os.environ[key] = getpass.getpass(prompt)] *)
Definition prompt_if_unset (key prompt : string) : M unit :=
  v <- environ_get key ;;
  if negb (truthy v)
  then p <- getpass prompt ;; environ_set key p
  else ret tt.

(** The two [if not os.environ.get(...)] statements of the setup cell. *)
Definition credential_setup : M unit :=
  prompt_if_unset "TAVILY_API_KEY" ("TAVILY_API_KEY:" +:+ LF) ;;;
  prompt_if_unset "OPENAI_API_KEY" "Enter API key for OpenAI: ".

(** Setting Up Your Tavily API Client; defines [tavily_client]. *)
Definition setup_cell : M client :=
  load_dotenv ;;;
  credential_setup ;;;
  k <- environ_get "TAVILY_API_KEY" ;;
  build OClient (TavilyClient k).

(** Vector Database Set Up; defines [vector_store]. *)
Definition vector_store_cell : M vector_store :=
  embeddings <- build OEmbeddings OpenAIEmbeddings ;;
  build OVectorStore (Chroma "crm" embeddings "supplemental/db").

(** Defines [retriever] and [search_results]. *)
Definition retriever_cell (vector_store : vector_store)
  : M (retriever * list document) :=
  retriever <- build ORetriever (as_retriever vector_store) ;;
  search_results <-
    perform (retriever_invoke retriever "robotics use case")
            (lib_retrieve retriever "robotics use case") ;;
  ret (retriever, search_results).

(** Prints the results of the vector search. *)
Definition print_results_cell (search_results : list document) : M unit :=
  for_each search_results (fun result =>
    emit (print_text (page_content result)) ;;;
    emit (print_text LF)).

(** What a completed run of that cell writes. *)
Definition results_printed (search_results : list document) : list event :=
  concat (map (fun result => [printed (print_text (page_content result));
                              printed (print_text LF)]) search_results).

(** Defines [vector_search_tool], [search], [extract] and [crawl]. *)
Definition tools_cell (retriever : retriever) : M (tool * tool * tool * tool) :=
  vector_search_tool <-
    build OTool (as_tool retriever "vector_search" vector_search_description) ;;
  search <- build OTool (TavilySearch 10 "general") ;;
  extract <- build OTool (TavilyExtract "advanced") ;;
  crawl <- build OTool TavilyCrawl ;;
  ret (vector_search_tool, search, extract, crawl).

(** Defines [o3_mini] and [gpt_4_1]. *)
Definition models_cell : M (chat_model * chat_model) :=
  k <- environ_get "OPENAI_API_KEY" ;;
  o3_mini <- build OModel (ChatOpenAI "o3-mini-2025-01-31" k) ;;
  k <- environ_get "OPENAI_API_KEY" ;;
  gpt_4_1 <- build OModel (ChatOpenAI "gpt-4.1" k) ;;
  ret (o3_mini, gpt_4_1).

(** Defines [today] and [hybrid_agent]. *)
Definition agent_cell (gpt_4_1 : chat_model)
    (search crawl extract vector_search_tool : tool) : M agent :=
  now <- perform datetime_today lib_today ;;
  let today := strftime now in
  prompt <- build OPrompt
    (from_messages [RoleEntry "system" (system_prompt today);
                    MessagesPlaceholder "messages"]) ;;
  build OAgent
    (create_react_agent gpt_4_1 [search; crawl; extract; vector_search_tool]
       prompt "hybrid_agent").

(** [for s in hybrid_agent.stream(...)]: each item is asked of the
    generator by a call of its own; the last call finds it exhausted.
    [message] is the notebook variable of that name, unbound at first. *)
Fixpoint stream_loop (a : agent) (items : list snapshot)
    (message : option AnyMessage) : M (option AnyMessage) :=
  match items with
  | [] => perform (stream_next a) (fun _ => message)
  | s :: rest =>
      perform (stream_next a) (fun _ => tt) ;;;
      message <- last_message s ;;
      (if is_tuple message
       then emit (print_message message)
       else emit (pretty_print message)) ;;;
      stream_loop a rest (Some message)
  end.

(** An invocation cell: one question, one stream, one print per item. *)
Definition invoke_cell (hybrid_agent : agent) (question : string)
    (message : option AnyMessage) : M (option AnyMessage) :=
  let inputs := [HumanMessage question] in
  items <- perform (agent_stream hybrid_agent inputs "values")
                   (lib_stream hybrid_agent inputs "values") ;;
  stream_loop hybrid_agent items message.

(** [Markdown(message.content)] *)
Definition final_output_cell (message : option AnyMessage) : M unit :=
  match message with
  | None => raise "NameError"
  | Some m =>
      match content_of m with
      | Some c => emit (Markdown c)
      | None => raise "AttributeError"
      end
  end.

(** The cells up to the construction of the agent. *)
Definition construction : M agent :=
  tavily_client <- setup_cell ;;
  vector_store <- vector_store_cell ;;
  rs <- retriever_cell vector_store ;;
  let '(retriever, search_results) := rs in
  print_results_cell search_results ;;;
  ts <- tools_cell retriever ;;
  let '(vector_search_tool, search, extract, crawl) := ts in
  ms <- models_cell ;;
  let '(o3_mini, gpt_4_1) := ms in
  agent_cell gpt_4_1 search crawl extract vector_search_tool.

(** The code cells of the notebook, run in order.  (The two shell cells,
    [!echo ... >> .env] and [%pip install], are not Python.) *)
Definition notebook : M unit :=
  hybrid_agent <- construction ;;
  message <- invoke_cell hybrid_agent first_question None ;;
  final_output_cell message ;;;
  message <- invoke_cell hybrid_agent second_question message ;;
  final_output_cell message.

(** ** Running a computation *)

Definition final {A} (m : M A) (s : state) : state := (m s).1.1.
Definition trace {A} (m : M A) (s : state) : list event := (m s).1.2.
Definition outcome {A} (m : M A) (s : state) : result A := (m s).2.

Definition completes {A} (m : M A) (s : state) : Prop :=
  exists a, outcome m s = Ok a.

(** The world after a sequence of calls. *)
Definition replay (cs : list call) (w : W) : W :=
  fold_left (fun w c => lib_next c w) cs w.

(** The calls of a trace got the library's answer: each raised what the
    library raises in the world of that moment. *)
Fixpoint honest (w : W) (evs : list event) : Prop :=
  match evs with
  | [] => True
  | Called c r :: rest => r = lib_raise c w /\ honest (lib_next c w) rest
  | _ :: rest => honest w rest
  end.

(** The actions of a step are determined by [key]: two completed runs
    that agree on it perform the same actions in the same order. *)
Definition determined_by {A K} (m : M A) (key : state -> K) : Prop :=
  forall s1 s2, completes m s1 -> completes m s2 -> key s1 = key s2 ->
    map action (trace m s1) = map action (trace m s2).

(** No condition evaluated by the step itself: its actions are the same
    in all completed runs. *)
Definition branch_free {A} (m : M A) : Prop :=
  determined_by m (fun _ => tt).

(** ** Running straight-line code *)

(** One step.  [load_dotenv] is the one library call that changes
    [os.environ]. *)
Definition run_step (st : step) : M unit :=
  match st with
  | Read key => environ_get key ;;; ret tt
  | Store key value => environ_set key value
  | Call load_dotenv_call => load_dotenv
  | Call c => perform c (fun _ => tt)
  end.

(** The steps one after the other, up to the first that raises. *)
Definition run_steps (steps : list step) : M unit := for_each steps run_step.

Definition finish {A} (r : result A) : M A := fun s => (s, [], r).

(** [m] is straight-line code: from every state [s] it runs the steps
    [script s], all of them unless one raises, and then ends as [ending s]
    says; state, trace and result are those of that run. *)
Definition runs {A} (m : M A) (script : state -> list step)
    (ending : state -> result A) : Prop :=
  forall s, m s = (run_steps (script s) ;;; finish (ending s)) s.

(** The steps of one credential statement,
    [if not os.environ.get(key): os.environ[key] = getpass.getpass(prompt)],
    where the variable holds [v] and [typed] is what [getpass] returns. *)
Definition credential_steps (key prompt : string) (v : option string)
    (typed : string) : list step :=
  Read key ::
  (if truthy v then [] else [Call (getpass_call prompt); Store key typed]).

(** ** The construction without the two unused handles

    The cells up to the agent, with the statements that define
    [tavily_client] and [o3_mini] removed. *)

Definition setup_cell_without_client : M unit :=
  load_dotenv ;;;
  credential_setup.

Definition models_cell_without_o3_mini : M chat_model :=
  k <- environ_get "OPENAI_API_KEY" ;;
  build OModel (ChatOpenAI "gpt-4.1" k).

Definition construction_without_unused : M agent :=
  setup_cell_without_client ;;;
  vector_store <- vector_store_cell ;;
  rs <- retriever_cell vector_store ;;
  let '(retriever, search_results) := rs in
  print_results_cell search_results ;;;
  ts <- tools_cell retriever ;;
  let '(vector_search_tool, search, extract, crawl) := ts in
  gpt_4_1 <- models_cell_without_o3_mini ;;
  agent_cell gpt_4_1 search crawl extract vector_search_tool.

(** The library calls of the two removed statements. *)
Definition removed_call (c : call) : bool :=
  match c with
  | construct (OClient _) => true
  | construct (OModel m) => String.eqb (model m) "o3-mini-2025-01-31"
  | _ => false
  end.

(** ** The constructs the cells are made of

    Sequencing, the interpreter's operations on [os.environ], library
    calls, and the interpreter's own exceptions: there is
    no construct that catches an exception.  [built P m] also says that
    every event [m] can produce satisfies [P]; what follows a step is
    looked at for the values that step can return. *)
Inductive built (P : event -> Prop) : forall {A : Type}, M A -> Prop :=
  | built_ret {A} (a : A) : built P (ret a)
  | built_raise {A} (e : exn) :
      interpreter_error e -> built P (raise (A:=A) e)
  | built_perform {A} (c : call) (answer : W -> A) :
      (forall r, P (Called c r)) -> built P (perform c answer)
  | built_environ_get (k : string) : P (EnvRead k) -> built P (environ_get k)
  | built_environ_set (k v : string) :
      P (EnvWrite k v) -> built P (environ_set k v)
  | built_update_environ f : built P (update_environ f)
  | built_bind {A B} (m : M A) (k : A -> M B) :
      built P m ->
      (forall a s, (m s).2 = Ok a -> built P (k a)) ->
      built P (bind m k).

(** The library calls that remain. *)
Definition kept (c : call) : bool := negb (removed_call c).

End Notebook.

Arguments state W : clear implicits.
Arguments M W A : clear implicits.
Arguments system_prompt : simpl never.
Arguments strftime : simpl never.
Arguments vector_search_description : simpl never.

(** ** A library to run the notebook on

    A small concrete library: a clock, a switch that takes the agent's
    service off line, and the documents of the persisted collection, which
    only a writing method changes. *)
Module Demo.

Record demo_world := {
  ticks : nat;
  clock : datetime;
  offline : bool;
  crm : list document }.

Definition tick (w : demo_world) : demo_world :=
  {| ticks := S (ticks w); clock := clock w; offline := offline w; crm := crm w |}.

Definition demo_next (c : call) (w : demo_world) : demo_world :=
  match c with
  | vector_store_write _ _ =>
      {| ticks := S (ticks w); clock := clock w; offline := offline w; crm := [] |}
  | construct _ => w
  | _ => tick w
  end.

Definition demo_raise (c : call) (w : demo_world) : option exn :=
  match c with
  | stream_next _ => if offline w then Some "APIConnectionError" else None
  | _ => None
  end.

Definition demo_getpass (prompt : string) (w : demo_world) : string :=
  if String.eqb prompt "Enter API key for OpenAI: " then "sk-typed" else "tvly-typed".

Definition demo_stream (a : agent) (inputs : list AnyMessage) (mode : string)
    (w : demo_world) : list snapshot :=
  [ {| messages := inputs |};
    {| messages := inputs ++ [TupleMessage "ai" "looking into the CRM"] |};
    {| messages := inputs ++ [TupleMessage "ai" "looking into the CRM";
                              ObjectMessage "ai" "Final answer"] |} ].

Definition demo_lib : Library demo_world := {|
  lib_raise := demo_raise;
  lib_next := demo_next;
  lib_dotenv := fun _ env => env;
  lib_getpass := demo_getpass;
  lib_today := clock;
  lib_retrieve := fun _ _ w => crm w;
  lib_stream := demo_stream |}.

Definition monday : datetime :=
  {| year := 2026; month := 11; day := 2;
     hour := 9; minute := 30; second := 0; microsecond := 0 |}.

Definition monday_evening : datetime :=
  {| year := 2026; month := 11; day := 2;
     hour := 21; minute := 5; second := 42; microsecond := 7 |}.

Definition tuesday : datetime :=
  {| year := 2026; month := 11; day := 3;
     hour := 9; minute := 30; second := 0; microsecond := 0 |}.

Definition world_at (now : datetime) (off : bool) : demo_world :=
  {| ticks := 0; clock := now; offline := off;
     crm := [ {| page_content := "Meeting notes: robotics pilot" |} ] |}.

(** Both credentials set. *)
Definition env_set_up : gmap string string :=
  <["TAVILY_API_KEY" := "tvly-from-env"]> (<["OPENAI_API_KEY" := "sk-from-env"]> ∅).

(** [TAVILY_API_KEY] present but empty. *)
Definition env_empty_key : gmap string string :=
  <["TAVILY_API_KEY" := ""]> (<["OPENAI_API_KEY" := "sk-from-env"]> ∅).

(** [TAVILY_API_KEY] absent. *)
Definition env_missing_key : gmap string string :=
  <["OPENAI_API_KEY" := "sk-from-env"]> ∅.

Definition start (env : gmap string string) (w : demo_world) : state demo_world :=
  {| environ := env; world := w |}.

(** The agent the notebook constructs at time [now] with the key [key]. *)
Definition demo_agent (now : datetime) (key : option string) : agent :=
  create_react_agent (ChatOpenAI "gpt-4.1" key)
    [TavilySearch 10 "general"; TavilyCrawl; TavilyExtract "advanced";
     as_tool (as_retriever crm_store) "vector_search" vector_search_description]
    (from_messages [RoleEntry "system" (system_prompt (strftime now));
                    MessagesPlaceholder "messages"])
    "hybrid_agent".

End Demo.

(** ** More readings of a trace, for the cells taken one by one *)

(** The writes to [os.environ], in order. *)
Definition env_writes (evs : list event) : list (string * string) :=
  omap (fun e => match e with EnvWrite k v => Some (k, v) | _ => None end) evs.

Definition client_built (e : event) : option client :=
  match e with Called (construct (OClient c)) _ => Some c | _ => None end.

(** The Tavily clients whose constructor was called. *)
Definition clients_built (evs : list event) : list client := omap client_built evs.

Definition model_built (e : event) : option chat_model :=
  match e with Called (construct (OModel m)) _ => Some m | _ => None end.

(** The chat model handles whose constructor was called. *)
Definition models_built (evs : list event) : list chat_model := omap model_built evs.

(** What the cell that prints the results has to write: for each result
    its text, then a line feed. *)
Definition result_lines (search_results : list document) : list output :=
  flat_map (fun result => [print_text (page_content result); print_text LF])
           search_results.

(** The variable [message] after the loop over [items]: the last message
    of the last snapshot, and what it was before when there is none. *)
Definition message_after (items : list snapshot) (message : option AnyMessage)
  : option AnyMessage :=
  match last items with
  | Some snap => last (messages snap)
  | None => message
  end.

Section CellsTogether.

Context {W : Type} {lib : Library W}.

(** A computation that leaves [os.environ] as it is and writes no
    variable. *)
Definition keeps_environ {A} (m : M W A) : Prop :=
  forall s, environ (final m s) = environ s /\ env_writes (trace m s) = [].

(** An invocation cell followed by the cell that displays the final
    message. *)
Definition invoke_and_display (hybrid_agent : agent) (question : string)
    (message : option AnyMessage) : M W unit :=
  bind (invoke_cell hybrid_agent question message) final_output_cell.

End CellsTogether.

(** A session without a terminal for the second prompt: [getpass] raises
    [EOFError] when asked for the OpenAI key. *)
Module NoTerminal.

Definition raise_at_second_prompt (c : call) (w : Demo.demo_world) : option exn :=
  match c with
  | getpass_call p =>
      if String.eqb p "Enter API key for OpenAI: " then Some "EOFError" else None
  | _ => None
  end.

Definition lib : Library Demo.demo_world := {|
  lib_raise := raise_at_second_prompt;
  lib_next := Demo.demo_next;
  lib_dotenv := fun _ env => env;
  lib_getpass := Demo.demo_getpass;
  lib_today := Demo.clock;
  lib_retrieve := fun _ _ w => Demo.crm w;
  lib_stream := Demo.demo_stream |}.

End NoTerminal.

(** A session in which what is pasted at a prompt ends with a NUL byte. *)
Module PastedKey.

Definition pasted (prompt : string) (w : Demo.demo_world) : string :=
  "tvly-pasted" +:+ String NUL EmptyString.

Definition lib : Library Demo.demo_world := {|
  lib_raise := Demo.demo_raise;
  lib_next := Demo.demo_next;
  lib_dotenv := fun _ env => env;
  lib_getpass := pasted;
  lib_today := Demo.clock;
  lib_retrieve := fun _ _ w => Demo.crm w;
  lib_stream := Demo.demo_stream |}.

End PastedKey.

(** * Properties *)

Example strftime_monday : strftime Demo.monday = "Monday, November 02, 2026".
Proof. vm_compute. reflexivity. Qed.

(** What [os.environ] takes and what it refuses: a plain key, the empty
    text, a text with a NUL byte, the surrogates U+D800 (refused) and
    U+DC80 (taken back as the byte 80), a name with [=], the empty name. *)
Example environ_set_error_cases :
  let bytes := fold_right (fun n s => String (ascii_of_nat n) s) EmptyString in
  environ_set_error "TAVILY_API_KEY" "tvly-typed" = None /\
  environ_set_error "TAVILY_API_KEY" EmptyString = None /\
  environ_set_error "TAVILY_API_KEY" (bytes [97; 0; 98]%nat) = Some "ValueError" /\
  environ_set_error "TAVILY_API_KEY" (bytes [237; 160; 128]%nat) =
    Some "UnicodeEncodeError" /\
  environ_set_error "TAVILY_API_KEY" (bytes [237; 178; 128]%nat) = None /\
  environ_set_error "TAVILY_API_KEY" (bytes [237; 160; 128; 0]%nat) =
    Some "UnicodeEncodeError" /\
  environ_set_error "A=B" "v" = Some "ValueError" /\
  environ_set_error EmptyString "v" = Some "OSError".
Proof. vm_compute. repeat split. Qed.

(** ** Running the constructs *)

Section Runs.

Context {W : Type} {lib : Library W}.
Implicit Types (s : state W) (evs : list event).

Lemma bind_inv_Ok {A B} (m : M W A) (k : A -> M W B) s s2 evs b :
  bind m k s = (s2, evs, Ok b) ->
  exists s1 ev1 a ev2,
    m s = (s1, ev1, Ok a) /\ k a s1 = (s2, ev2, Ok b) /\ evs = ev1 ++ ev2.
Proof.
  unfold bind. destruct (m s) as [[s1 ev1] [a|e]]; [|discriminate].
  destruct (k a s1) as [[s2' ev2] r] eqn:Hk. intros [= <- <- ->].
  exists s1, ev1, a, ev2. auto.
Qed.

Lemma bind_run_Ok {A B} (m : M W A) (k : A -> M W B) s s1 ev1 a s2 ev2 r :
  m s = (s1, ev1, Ok a) -> k a s1 = (s2, ev2, r) ->
  bind m k s = (s2, ev1 ++ ev2, r).
Proof. unfold bind. intros -> ->. reflexivity. Qed.

Lemma perform_inv_Ok {A} (c : call) (answer : W -> A) s s' evs a :
  perform c answer s = (s', evs, Ok a) ->
  lib_raise c (world s) = None /\
  s' = {| environ := environ s; world := lib_next c (world s) |} /\
  evs = [Called c None] /\ a = answer (world s).
Proof.
  unfold perform. destruct (lib_raise c (world s)); [discriminate|].
  intros [= <- <- <-]. auto.
Qed.

Lemma emit_inv o s s' evs x :
  emit o s = (s', evs, Ok x) ->
  s' = {| environ := environ s; world := lib_next (console o) (world s) |} /\
  evs = [printed o].
Proof.
  unfold emit. intros H. apply perform_inv_Ok in H. tauto.
Qed.

(** A completed run of the cell that prints the results. *)
Lemma print_results_cell_inv (search_results : list document) s s' evs x :
  print_results_cell search_results s = (s', evs, Ok x) ->
  evs = results_printed search_results /\ environ s' = environ s.
Proof.
  unfold print_results_cell, results_printed.
  revert s s' evs. induction search_results as [|result rest IH];
    intros s s' evs H; cbn [for_each] in H.
  - injection H as <- <- _. auto.
  - apply bind_inv_Ok in H. destruct H as (s1 & ev1 & [] & ev2 & H1 & H2 & ->).
    apply bind_inv_Ok in H1. destruct H1 as (s0 & ev0 & [] & ev0' & Ha & Hb & ->).
    apply emit_inv in Ha, Hb. destruct Ha as [-> ->], Hb as [-> ->].
    apply IH in H2. destruct H2 as [-> ->]. auto.
Qed.

(** What [os.environ] raises is the interpreter's. *)
Lemma environ_set_error_interpreter key value e :
  environ_set_error key value = Some e -> interpreter_error e.
Proof.
  unfold environ_set_error, interpreter_error.
  repeat match goal with |- context [if ?b then _ else _] => destruct b end;
    intros [= <-]; auto 10.
Qed.

(** *** What holds of everything made of the constructs *)

(** Every event satisfies the predicate. *)
Lemma built_events (P : event -> Prop) {A} (m : M W A) :
  built P m -> forall s, Forall P (trace m s).
Proof.
  unfold trace. induction 1 as [A a|A e He|A c answer Hc|k Hk|k v Hk|f
                               |A B m k Hm IHm Hk IHk]; intros s; simpl.
  - constructor.
  - constructor.
  - unfold perform. destruct (lib_raise c (world s)); simpl; auto.
  - auto.
  - unfold environ_set. destruct (environ_set_error k v); simpl; auto.
  - constructor.
  - unfold bind. specialize (IHm s).
    destruct (m s) as [[s1 ev1] [a|e]] eqn:Hms; simpl in *; [|assumption].
    specialize (IHk a s ltac:(rewrite Hms; reflexivity) s1).
    destruct (k a s1) as [[s2 ev2] r]; simpl in *.
    apply Forall_app; auto.
Qed.

(** No exception is caught, and none is followed by another event. *)
Lemma built_uncaught (P : event -> Prop) {A} (m : M W A) :
  built P m -> forall s, uncaught (trace m s) (outcome m s).
Proof.
  unfold trace, outcome.
  induction 1 as [A a|A e He|A c answer Hc|k Hk|k v Hk|f
                 |A B m k Hm IHm Hk IHk]; intros s; simpl.
  - constructor.
  - right. split; [assumption|constructor].
  - unfold perform. destruct (lib_raise c (world s)) as [e|]; simpl.
    + left. exists [], c. split; [reflexivity|constructor].
    + repeat constructor.
  - repeat constructor.
  - unfold environ_set. destruct (environ_set_error k v) as [e|] eqn:He; simpl.
    + right. split; [|constructor]. eapply environ_set_error_interpreter, He.
    + repeat constructor.
  - constructor.
  - unfold bind. specialize (IHm s).
    destruct (m s) as [[s1 ev1] [a|e]] eqn:Hms; simpl in *; [|assumption].
    specialize (IHk a s ltac:(rewrite Hms; reflexivity) s1).
    destruct (k a s1) as [[s2 ev2] [b|e]]; simpl in *.
    + apply Forall_app; auto.
    + destruct IHk as [(pre & c & -> & Hpre)|[He Hev]].
      * left. exists (ev1 ++ pre), c. rewrite app_assoc. split; [reflexivity|].
        apply Forall_app; auto.
      * right. split; [assumption|]. apply Forall_app; auto.
Qed.

Lemma built_emit (P : event -> Prop) (o : output) :
  (forall r, P (Called (console o) r)) -> built P (emit o).
Proof. intros H. apply built_perform, H. Qed.

Lemma replay_app (cs1 cs2 : list call) (w : W) :
  replay (cs1 ++ cs2) w = replay cs2 (replay cs1 w).
Proof. apply fold_left_app. Qed.

(** The world changes by the library calls of the trace and by nothing
    else. *)
Lemma built_replay (P : event -> Prop) {A} (m : M W A) :
  built P m -> forall s, world (final m s) = replay (calls (trace m s)) (world s).
Proof.
  unfold trace, final.
  induction 1 as [A a|A e He|A c answer Hc|k Hk|k v Hk|f
                 |A B m k Hm IHm Hk IHk]; intros s; simpl; try reflexivity.
  - unfold perform. destruct (lib_raise c (world s)); reflexivity.
  - unfold environ_set. destruct (environ_set_error k v); reflexivity.
  - unfold bind. specialize (IHm s).
    destruct (m s) as [[s1 ev1] [a|e]] eqn:Hms; simpl in *; [|assumption].
    specialize (IHk a s ltac:(rewrite Hms; reflexivity) s1).
    destruct (k a s1) as [[s2 ev2] r]; simpl in *.
    unfold calls in *. rewrite omap_app, replay_app, <- IHm. assumption.
Qed.

Lemma ret_inv {A} (a x : A) s s' evs :
  ret a s = (s', evs, Ok x) -> s' = s /\ evs = [] /\ x = a.
Proof. intros [= <- <- <-]. auto. Qed.

Lemma environ_get_inv k s s' evs v :
  environ_get k s = (s', evs, Ok v) ->
  s' = s /\ evs = [EnvRead k] /\ v = environ s !! k.
Proof. intros [= <- <- <-]. auto. Qed.

Lemma environ_set_inv k v s s' evs x :
  environ_set k v s = (s', evs, Ok x) ->
  s' = {| environ := <[k:=v]> (environ s); world := world s |} /\
  evs = [EnvWrite k v].
Proof.
  unfold environ_set. destruct (environ_set_error k v); [discriminate|].
  intros [= <- <-]. auto.
Qed.

Lemma update_environ_inv f s s' evs x :
  update_environ f s = (s', evs, Ok x) ->
  s' = {| environ := f (environ s); world := world s |} /\ evs = [].
Proof. intros [= <- <-]. auto. Qed.

End Runs.

(** Taking a completed run apart, construct by construct. *)
Ltac run_inv :=
  repeat (cbv beta iota in *; cbn [environ world] in *;
    match goal with
    | H : bind _ _ _ = (_, _, Ok _) |- _ =>
        apply bind_inv_Ok in H; destruct H as (? & ? & ? & ? & ? & ? & ?)
    | H : perform _ _ _ = (_, _, Ok _) |- _ =>
        apply perform_inv_Ok in H; destruct H as (? & ? & ? & ?)
    | H : build _ _ _ = (_, _, Ok _) |- _ => unfold build in H
    | H : getpass _ _ = (_, _, Ok _) |- _ => unfold getpass in H
    | H : load_dotenv _ = (_, _, Ok _) |- _ => unfold load_dotenv in H
    | H : ret _ _ = (_, _, Ok _) |- _ =>
        apply ret_inv in H; destruct H as (? & ? & ?)
    | H : environ_get _ _ = (_, _, Ok _) |- _ =>
        apply environ_get_inv in H; destruct H as (? & ? & ?)
    | H : environ_set _ _ _ = (_, _, Ok _) |- _ =>
        apply environ_set_inv in H; destruct H as (? & ?)
    | H : update_environ _ _ = (_, _, Ok _) |- _ =>
        apply update_environ_inv in H; destruct H as (? & ?)
    | H : emit _ _ = (_, _, Ok _) |- _ =>
        apply emit_inv in H; destruct H as (? & ?)
    | H : print_results_cell _ _ = (_, _, Ok _) |- _ =>
        apply print_results_cell_inv in H; destruct H as (? & ?)
    end; subst);
  cbn [environ world] in *.

(** From [(m s).2 = Ok a] to the run of [m] taken apart. *)
Ltac returned Hout :=
  match type of Hout with
  | (?m ?s).2 = Ok _ =>
      let Hrun := fresh "Hrun" in
      destruct (m s) as [[? ?] ?] eqn:Hrun; simpl in Hout; subst;
      run_inv
  end.


(** ** The cells, step by step *)

Section CellRuns.

Context {W : Type} {lib : Library W}.
Implicit Types (s : state W) (evs : list event).

Lemma built_for_each (P : event -> Prop) {A} (xs : list A) (body : A -> M W unit) :
  (forall x, built P (body x)) -> built P (for_each xs body).
Proof.
  intros Hbody. induction xs as [|x xs IH]; simpl.
  - apply built_ret.
  - apply built_bind; [apply Hbody|intros; apply IH].
Qed.

Lemma built_last_message (P : event -> Prop) (snap : snapshot) :
  built P (last_message (W:=W) snap).
Proof.
  unfold last_message. destruct (last (messages snap)).
  - apply built_ret.
  - apply built_raise. left. reflexivity.
Qed.

Lemma built_stream_loop (P : event -> Prop) a items message :
  (forall r, P (Called (stream_next a) r)) ->
  (forall o r, P (Called (console o) r)) ->
  built P (stream_loop a items message).
Proof.
  intros Hnext Hout. revert message.
  induction items as [|snap items IH]; intros message; simpl.
  - apply built_perform. assumption.
  - apply built_bind; [apply built_perform; assumption|intros _ _ _].
    apply built_bind; [apply built_last_message|intros m _ _].
    apply built_bind; [|intros; apply IH].
    destruct (is_tuple m); apply built_emit; intros; apply Hout.
Qed.

Lemma built_invoke_cell (P : event -> Prop) a question message :
  (forall i m r, P (Called (agent_stream a i m) r)) ->
  (forall r, P (Called (stream_next a) r)) ->
  (forall o r, P (Called (console o) r)) ->
  built P (invoke_cell a question message).
Proof.
  intros Hstream Hnext Hout. unfold invoke_cell.
  apply built_bind; [apply built_perform; intros; apply Hstream|intros].
  apply built_stream_loop; assumption.
Qed.

Lemma built_final_output_cell (P : event -> Prop) message :
  (forall o r, P (Called (console o) r)) -> built P (final_output_cell (W:=W) message).
Proof.
  intros Hout. unfold final_output_cell. destruct message as [m|].
  - destruct (content_of m).
    + apply built_emit. intros. apply Hout.
    + apply built_raise. right. right. left. reflexivity.
  - apply built_raise. right. left. reflexivity.
Qed.

Lemma built_prompt_if_unset (P : event -> Prop) key prompt :
  P (EnvRead key) ->
  (forall v, P (EnvWrite key v)) ->
  (forall r, P (Called (getpass_call prompt) r)) ->
  built P (prompt_if_unset key prompt).
Proof.
  intros Hget Hset Hpass. unfold prompt_if_unset, getpass.
  apply built_bind; [apply built_environ_get; assumption|intros v _ _].
  destruct (negb (truthy v)); [|apply built_ret].
  apply built_bind; [apply built_perform; assumption|intros].
  apply built_environ_set, Hset.
Qed.

Lemma built_credential_setup (P : event -> Prop) :
  (forall k, credential k -> P (EnvRead k)) ->
  (forall k v, credential k -> P (EnvWrite k v)) ->
  (forall p r, P (Called (getpass_call p) r)) ->
  built P credential_setup.
Proof.
  intros Hget Hset Hpass.
  assert (HT : credential "TAVILY_API_KEY") by (left; reflexivity).
  assert (HO : credential "OPENAI_API_KEY") by (right; reflexivity).
  unfold credential_setup.
  apply built_bind; [|intros _ _ _]; apply built_prompt_if_unset; auto.
Qed.

Lemma built_setup_cell (P : event -> Prop) :
  (forall k, credential k -> P (EnvRead k)) ->
  (forall k v, credential k -> P (EnvWrite k v)) ->
  (forall p r, P (Called (getpass_call p) r)) ->
  (forall r, P (Called load_dotenv_call r)) ->
  (forall c r, P (Called (construct (OClient c)) r)) ->
  built P setup_cell.
Proof.
  intros Hget Hset Hpass Hdot Hclient. unfold setup_cell, load_dotenv, build.
  apply built_bind.
  { apply built_bind; [apply built_perform; auto|intros].
    apply built_update_environ. }
  intros _ _ _.
  apply built_bind; [apply built_credential_setup; auto|intros _ _ _].
  apply built_bind; [apply built_environ_get, Hget; left; reflexivity|intros].
  apply built_perform. auto.
Qed.


Lemma quiet_projections evs :
  Forall quiet evs ->
  tools_built evs = [] /\ agents_built evs = [] /\
  stores_built evs = [] /\ clock_reads evs = 0%nat.
Proof.
  unfold tools_built, agents_built, stores_built, clock_reads.
  induction 1 as [|e evs (Ht & Ha & Hs & Hc) _ (IHt & IHa & IHs & IHc)];
    simpl; [auto|].
  rewrite Ht, Ha, Hs, Hc. auto.
Qed.

Lemma quiet_setup_cell s : Forall quiet (trace setup_cell s).
Proof.
  apply (built_events quiet). apply built_setup_cell; intros; repeat split.
Qed.

Lemma quiet_prints (search_results : list document) :
  Forall quiet (results_printed search_results).
Proof.
  unfold results_printed.
  induction search_results; simpl; repeat constructor. assumption.
Qed.

Lemma perm_swap_tail_4 {A} (a b c d : A) :
  Permutation [b; d; c; a] [a; b; c; d].
Proof.
  apply (Permutation_trans (l' := [b; c; d; a])).
  - apply perm_skip, perm_swap.
  - apply (Permutation_app_comm [b; c; d] [a]).
Qed.

Lemma tools_built_app evs1 evs2 :
  tools_built (evs1 ++ evs2) = tools_built evs1 ++ tools_built evs2.
Proof. apply omap_app. Qed.

Lemma agents_built_app evs1 evs2 :
  agents_built (evs1 ++ evs2) = agents_built evs1 ++ agents_built evs2.
Proof. apply omap_app. Qed.

Lemma stores_built_app evs1 evs2 :
  stores_built (evs1 ++ evs2) = stores_built evs1 ++ stores_built evs2.
Proof. apply omap_app. Qed.

Lemma clock_reads_app evs1 evs2 :
  clock_reads (evs1 ++ evs2) = (clock_reads evs1 + clock_reads evs2)%nat.
Proof. unfold clock_reads. rewrite omap_app. apply length_app. Qed.

(** A completed construction: the agent it returns and what it built on
    the way. *)
Lemma construction_inv s s' evs a :
  construction s = (s', evs, Ok a) ->
  exists k d,
    a = create_react_agent (ChatOpenAI "gpt-4.1" k)
          [TavilySearch 10 "general"; TavilyCrawl; TavilyExtract "advanced";
           as_tool (as_retriever crm_store) "vector_search"
                   vector_search_description]
          (from_messages [RoleEntry "system" (system_prompt (strftime d));
                          MessagesPlaceholder "messages"])
          "hybrid_agent" /\
    tools_built evs =
      [as_tool (as_retriever crm_store) "vector_search" vector_search_description;
       TavilySearch 10 "general"; TavilyExtract "advanced"; TavilyCrawl] /\
    agents_built evs = [a] /\
    stores_built evs = [crm_store] /\
    clock_reads evs = 1%nat.
Proof.
  intros H. unfold construction in H.
  apply bind_inv_Ok in H. destruct H as (s1 & ev1 & tc & ev2 & Hsetup & H & ->).
  pose proof (quiet_setup_cell s) as Hq. unfold trace in Hq. rewrite Hsetup in Hq.
  simpl in Hq. apply quiet_projections in Hq. destruct Hq as (Ht & Ha & Hs & Hc).
  unfold vector_store_cell, retriever_cell, tools_cell, models_cell, agent_cell in H.
  run_inv.
  eexists _, _. split; [reflexivity|].
  rewrite !tools_built_app, !agents_built_app, !stores_built_app, !clock_reads_app.
  rewrite Ht, Ha, Hs, Hc.
  match goal with |- context [results_printed ?rs] =>
    destruct (quiet_projections _ (quiet_prints rs)) as (-> & -> & -> & ->)
  end.
  repeat split.
Qed.

(** After a completed construction the notebook builds nothing more. *)
Lemma notebook_after_construction s s1 ev1 a :
  construction s = (s1, ev1, Ok a) ->
  exists ev2, trace notebook s = ev1 ++ ev2 /\ Forall quiet ev2.
Proof.
  intros H. unfold notebook, trace at 1.
  set (rest := fun hybrid_agent : agent => _).
  assert (Hrest : Forall quiet (trace (rest a) s1)).
  { apply (built_events quiet). unfold rest.
    apply built_bind; [apply built_invoke_cell; intros; repeat split|intros].
    apply built_bind; [apply built_final_output_cell; intros; repeat split|intros].
    apply built_bind; [apply built_invoke_cell; intros; repeat split|intros].
    apply built_final_output_cell; intros; repeat split. }
  unfold trace in Hrest. unfold bind at 1. rewrite H.
  destruct (rest a s1) as [[s2 ev2] r]. simpl in *. eauto.
Qed.

Lemma built_vector_store_cell : built notebook_event (vector_store_cell (lib:=lib)).
Proof.
  unfold vector_store_cell, build.
  apply built_bind; [apply built_perform; intros; exact I|intros [] _ _].
  apply built_perform. intros. reflexivity.
Qed.

Lemma vector_store_cell_returns s v :
  (vector_store_cell s).2 = Ok v -> v = crm_store.
Proof. unfold vector_store_cell. intros Hout. returned Hout. reflexivity. Qed.

Lemma built_retriever_cell v :
  v = crm_store -> built notebook_event (retriever_cell (lib:=lib) v).
Proof.
  intros ->. unfold retriever_cell, build.
  apply built_bind; [apply built_perform; intros; reflexivity|intros r s Hout].
  returned Hout.
  apply built_bind; [apply built_perform; intros; reflexivity|intros].
  apply built_ret.
Qed.

Lemma retriever_cell_returns v s rs :
  (retriever_cell v s).2 = Ok rs -> rs.1 = as_retriever v.
Proof. unfold retriever_cell. intros Hout. returned Hout. reflexivity. Qed.

Lemma built_print_results_cell (P : event -> Prop) search_results :
  (forall o r, P (Called (console o) r)) ->
  built P (print_results_cell (W:=W) search_results).
Proof.
  intros Hout. unfold print_results_cell. apply built_for_each. intros result.
  apply built_bind; [|intros]; apply built_emit; intros; apply Hout.
Qed.

Lemma built_tools_cell r :
  retriever_store r = crm_store -> built notebook_event (tools_cell (lib:=lib) r).
Proof.
  intros Hr. unfold tools_cell, build.
  repeat (apply built_bind; [apply built_perform; intros; simpl; auto|intros]).
  apply built_ret.
Qed.

Lemma built_models_cell : built notebook_event (models_cell (lib:=lib)).
Proof.
  unfold models_cell, build.
  repeat first
    [ apply built_bind; [|intros]
    | apply built_environ_get; right; reflexivity
    | apply built_perform; intros; exact I
    | apply built_ret ].
Qed.

Lemma models_cell_returns s ms :
  (models_cell s).2 = Ok ms -> model ms.2 = "gpt-4.1".
Proof. unfold models_cell. intros Hout. returned Hout. reflexivity. Qed.

Lemma built_agent_cell gpt_4_1 search crawl extract vector_search_tool :
  model gpt_4_1 = "gpt-4.1" ->
  built notebook_event
    (agent_cell (lib:=lib) gpt_4_1 search crawl extract vector_search_tool).
Proof.
  intros Hmodel. unfold agent_cell, build.
  repeat first
    [ apply built_bind; [|intros]
    | apply built_perform; intros; first [exact I|exact Hmodel] ].
Qed.

Lemma built_construction : built notebook_event (construction (lib:=lib)).
Proof.
  assert (HT : credential "TAVILY_API_KEY") by (left; reflexivity).
  assert (HO : credential "OPENAI_API_KEY") by (right; reflexivity).
  unfold construction.
  apply built_bind; [apply built_setup_cell; simpl; auto|intros _ _ _].
  apply built_bind; [apply built_vector_store_cell|intros v s Hv].
  apply vector_store_cell_returns in Hv.
  apply built_bind; [apply built_retriever_cell, Hv|intros [r results] s' Hr].
  apply retriever_cell_returns in Hr. simpl in Hr. subst r v.
  apply built_bind; [apply built_print_results_cell; intros; exact I|intros _ _ _].
  apply built_bind; [apply built_tools_cell; reflexivity|intros [[[? ?] ?] ?] _ _].
  apply built_bind; [apply built_models_cell|intros [? g] ? Hg].
  apply models_cell_returns in Hg. apply built_agent_cell, Hg.
Qed.

(** The notebook is made of the constructs, and produces the events of
    [notebook_event] only. *)
Lemma built_notebook : built notebook_event (notebook (lib:=lib)).
Proof.
  unfold notebook.
  apply built_bind; [apply built_construction|intros a s Ha].
  assert (Hmodel : model (agent_model a) = "gpt-4.1").
  { destruct (construction s) as [[s1 ev1] r] eqn:Hrun. cbn in Ha. subst r.
    destruct (construction_inv _ _ _ _ Hrun) as (k & d & -> & _). reflexivity. }
  apply built_bind;
    [apply built_invoke_cell; intros; first [exact I|exact Hmodel]|intros].
  apply built_bind; [apply built_final_output_cell; intros; exact I|intros].
  apply built_bind;
    [apply built_invoke_cell; intros; first [exact I|exact Hmodel]|intros].
  apply built_final_output_cell; intros; exact I.
Qed.

End CellRuns.

(** ** Tools and agent *)

Section ToolsAndAgent.

Context {W : Type} {lib : Library W}.
Implicit Types (s : state W) (evs : list event).

Lemma outcome_run {A} (m : M W A) s a :
  outcome m s = Ok a -> exists s1 evs, m s = (s1, evs, Ok a).
Proof.
  unfold outcome. destruct (m s) as [[s1 evs] r]. simpl. intros ->. eauto.
Qed.

(** C2: when the construction completes, the tool constructors called in
    the whole notebook are exactly four: the vector search tool
    ([retriever.as_tool]), [TavilySearch], [TavilyExtract] and
    [TavilyCrawl]; the list passed to [create_react_agent] is these four,
    in the order search, crawl, extract, vector search, one of each kind. *)
Theorem four_tools_built_and_passed s a :
  outcome construction s = Ok a ->
  let search := TavilySearch 10 "general" in
  let crawl := TavilyCrawl in
  let extract := TavilyExtract "advanced" in
  let vector_search_tool :=
    as_tool (as_retriever crm_store) "vector_search" vector_search_description in
  tools_built (trace notebook s) = [vector_search_tool; search; extract; crawl] /\
  agents_built (trace notebook s) = [a] /\
  agent_tools a = [search; crawl; extract; vector_search_tool] /\
  Permutation (agent_tools a) (tools_built (trace notebook s)) /\
  map kind_of (agent_tools a) =
    [web_search; web_crawl; web_extract; vector_retrieval].
Proof.
  intros Hok. destruct (outcome_run _ _ _ Hok) as (s1 & ev1 & Hrun).
  destruct (construction_inv _ _ _ _ Hrun) as (k & d & Ha & Ht & Hag & _ & _).
  destruct (notebook_after_construction _ _ _ _ Hrun) as (ev2 & -> & Hq).
  apply quiet_projections in Hq. destruct Hq as (Ht2 & Ha2 & _ & _).
  rewrite tools_built_app, agents_built_app, Ht, Hag, Ht2, Ha2. subst a. simpl.
  repeat split.
  apply perm_swap_tail_4.
Qed.


End ToolsAndAgent.

Lemma four_tools_built_and_passed_witness :
  let s := Demo.start Demo.env_set_up (Demo.world_at Demo.monday false) in
  tools_built (trace (notebook (lib:=Demo.demo_lib)) s) =
    [as_tool (as_retriever crm_store) "vector_search" vector_search_description;
     TavilySearch 10 "general"; TavilyExtract "advanced"; TavilyCrawl].
Proof.
  intros s.
  apply (four_tools_built_and_passed (lib:=Demo.demo_lib) s
           (Demo.demo_agent Demo.monday (Some "sk-from-env"))).
  vm_compute. reflexivity.
Defined.

(** ** Credentials *)

Section Credentials.

Context {W : Type} {lib : Library W}.
Implicit Types (s : state W) (evs : list event).

(** The run of one credential statement, case by case. *)
Lemma prompt_if_unset_run key prompt s :
  prompt_if_unset key prompt s =
  if truthy (environ s !! key) then (s, [EnvRead key], Ok tt)
  else match lib_raise (getpass_call prompt) (world s) with
       | Some e =>
           ({| environ := environ s;
               world := lib_next (getpass_call prompt) (world s) |},
            [EnvRead key; Called (getpass_call prompt) (Some e)], Raise e)
       | None =>
           match environ_set_error key (lib_getpass prompt (world s)) with
           | Some e =>
               ({| environ := environ s;
                   world := lib_next (getpass_call prompt) (world s) |},
                [EnvRead key; Called (getpass_call prompt) None], Raise e)
           | None =>
               ({| environ := <[key := lib_getpass prompt (world s)]> (environ s);
                   world := lib_next (getpass_call prompt) (world s) |},
                [EnvRead key; Called (getpass_call prompt) None;
                 EnvWrite key (lib_getpass prompt (world s))], Ok tt)
           end
       end.
Proof.
  unfold prompt_if_unset, bind, environ_get, getpass, perform, environ_set, ret.
  destruct (truthy (environ s !! key)); simpl; [reflexivity|].
  destruct (lib_raise (getpass_call prompt) (world s)); [reflexivity|].
  cbn [environ world].
  destruct (environ_set_error key (lib_getpass prompt (world s))); reflexivity.
Qed.

Lemma credential_setup_run s :
  credential_setup s =
  match prompt_if_unset "TAVILY_API_KEY" ("TAVILY_API_KEY:" +:+ LF) s with
  | (s1, ev1, Ok _) =>
      match prompt_if_unset "OPENAI_API_KEY" "Enter API key for OpenAI: " s1 with
      | (s2, ev2, r) => (s2, ev1 ++ ev2, r)
      end
  | (s1, ev1, Raise e) => (s1, ev1, Raise e)
  end.
Proof. reflexivity. Qed.

Lemma keys_differ : "TAVILY_API_KEY" <> "OPENAI_API_KEY".
Proof. discriminate. Qed.



(** C8: a credential that is present but empty is treated as a missing
    one.  With [TAVILY_API_KEY] or [OPENAI_API_KEY] set to the empty
    string, the statement of that variable asks for it at the prompt,
    whatever the state it is run in, and writes what was typed over the
    empty value, unless the prompt raises or [os.environ] refuses what was
    typed; it does what it does with the variable removed: same events,
    same outcome, same state when it completes.  So do the two statements
    together: the prompt for the variable is shown as soon as its statement
    is reached, and in a run that completes (as every run does when no
    prompt raises and nothing typed is refused) the typed value is in the
    variable. *)
Theorem empty_credential_treated_as_missing s key prompt :
  (key = "TAVILY_API_KEY" /\ prompt = "TAVILY_API_KEY:" +:+ LF) \/
  (key = "OPENAI_API_KEY" /\ prompt = "Enter API key for OpenAI: ") ->
  environ s !! key = Some "" ->
  let s0 := {| environ := delete key (environ s); world := world s |} in
  let typed := lib_getpass prompt (world s) in
  let asked := lib_next (getpass_call prompt) (world s) in
  prompt_if_unset key prompt s =
    match lib_raise (getpass_call prompt) (world s) with
    | Some e =>
        ({| environ := environ s; world := asked |},
         [EnvRead key; Called (getpass_call prompt) (Some e)], Raise e)
    | None =>
        match environ_set_error key typed with
        | Some e =>
            ({| environ := environ s; world := asked |},
             [EnvRead key; Called (getpass_call prompt) None], Raise e)
        | None =>
            ({| environ := <[key := typed]> (environ s); world := asked |},
             [EnvRead key; Called (getpass_call prompt) None;
              EnvWrite key typed], Ok tt)
        end
    end /\
  trace (prompt_if_unset key prompt) s = trace (prompt_if_unset key prompt) s0 /\
  outcome (prompt_if_unset key prompt) s = outcome (prompt_if_unset key prompt) s0 /\
  (outcome (prompt_if_unset key prompt) s = Ok tt ->
     final (prompt_if_unset key prompt) s = final (prompt_if_unset key prompt) s0) /\
  trace credential_setup s = trace credential_setup s0 /\
  outcome credential_setup s = outcome credential_setup s0 /\
  (key = "TAVILY_API_KEY" \/
   outcome (prompt_if_unset "TAVILY_API_KEY" ("TAVILY_API_KEY:" +:+ LF)) s = Ok tt ->
     In prompt (prompts (trace credential_setup s))) /\
  ((forall p w, lib_raise (getpass_call p) w = None) ->
   (forall k p w, credential k -> environ_set_error k (lib_getpass p w) = None) ->
     outcome credential_setup s = Ok tt) /\
  (outcome credential_setup s = Ok tt ->
     final credential_setup s = final credential_setup s0 /\
     In prompt (prompts (trace credential_setup s)) /\
     exists w,
       In (EnvWrite key (lib_getpass prompt w)) (trace credential_setup s) /\
       environ (final credential_setup s) !! key = Some (lib_getpass prompt w)).
Proof.
  pose proof keys_differ as Hne.
  assert (Hne' : "OPENAI_API_KEY" <> "TAVILY_API_KEY") by auto.
  assert (HT : credential "TAVILY_API_KEY") by (left; reflexivity).
  assert (HO : credential "OPENAI_API_KEY") by (right; reflexivity).
  assert (Hfails : forall k p w e,
            credential k ->
            lib_raise (getpass_call p) w = Some e \/
            (environ_set_error k (lib_getpass p w) = Some e) ->
            (forall p w, lib_raise (getpass_call p) w = None) ->
            (forall k p w, credential k ->
               environ_set_error k (lib_getpass p w) = None) ->
            Raise (A:=unit) e = Ok tt).
  { intros k p w e Hk [H|H] Hlib Hstore.
    - rewrite Hlib in H. discriminate H.
    - rewrite (Hstore _ _ _ Hk) in H. discriminate H. }
  intros [[-> ->]|[-> ->]] Hempty; cbv zeta; unfold outcome, trace, final;
    rewrite !credential_setup_run, !prompt_if_unset_run; cbn [environ world].
  - rewrite Hempty, lookup_delete_eq. cbn [truthy].
    destruct (lib_raise _ (world s)) as [e|] eqn:Hraise.
    { cbn. repeat match goal with |- _ /\ _ => apply conj end;
        try reflexivity; try discriminate; eauto. }
    destruct (environ_set_error _ _) as [e|] eqn:Hset.
    { cbn. repeat match goal with |- _ /\ _ => apply conj end;
        try reflexivity; try discriminate; eauto. }
    rewrite !prompt_if_unset_run. cbn [environ world].
    rewrite !(lookup_insert_ne _ _ _ _ Hne), (lookup_delete_ne _ _ _ Hne).
    rewrite insert_delete_eq.
    destruct (truthy (environ s !! "OPENAI_API_KEY")).
    + cbn -[lookup insert delete].
      repeat match goal with |- _ /\ _ => apply conj end;
        try reflexivity; eauto.
      intros _. split; [reflexivity|split; [auto|]].
      exists (world s). split; [auto|apply lookup_insert_eq].
    + destruct (lib_raise (getpass_call "Enter API key for OpenAI: ") _) as [e|] eqn:Hraise2.
      { cbn -[lookup insert delete].
        repeat match goal with |- _ /\ _ => apply conj end;
          try reflexivity; try discriminate; eauto. }
      destruct (environ_set_error "OPENAI_API_KEY" _) as [e|] eqn:Hset2.
      { cbn -[lookup insert delete].
        repeat match goal with |- _ /\ _ => apply conj end;
          try reflexivity; try discriminate; eauto. }
      cbn -[lookup insert delete].
      repeat match goal with |- _ /\ _ => apply conj end;
        try reflexivity; eauto.
      intros _. split; [reflexivity|split; [auto|]].
      exists (world s). split; [auto|].
      rewrite lookup_insert_ne by auto. apply lookup_insert_eq.
  - rewrite Hempty, lookup_delete_eq, (lookup_delete_ne _ _ _ Hne'). cbn [truthy].
    split; [reflexivity|].
    split.
    { destruct (lib_raise _ (world s)); [reflexivity|].
      destruct (environ_set_error _ _); reflexivity. }
    split.
    { destruct (lib_raise _ (world s)); [reflexivity|].
      destruct (environ_set_error _ _); reflexivity. }
    split.
    { destruct (lib_raise _ (world s)); [discriminate|].
      destruct (environ_set_error _ _); [discriminate|].
      intros _. cbn [fst snd]. rewrite insert_delete_eq. reflexivity. }
    destruct (truthy (environ s !! "TAVILY_API_KEY")).
    + rewrite !prompt_if_unset_run. cbn [environ world].
      rewrite Hempty, lookup_delete_eq. cbn [truthy].
      destruct (lib_raise _ _) as [e|] eqn:Hraise.
      { cbn. repeat match goal with |- _ /\ _ => apply conj end;
          try reflexivity; try discriminate; eauto. }
      destruct (environ_set_error _ _) as [e|] eqn:Hset.
      { cbn. repeat match goal with |- _ /\ _ => apply conj end;
          try reflexivity; try discriminate; eauto. }
      rewrite insert_delete_eq. cbn -[lookup insert delete].
      repeat match goal with |- _ /\ _ => apply conj end;
        try reflexivity; eauto.
      intros _. split; [reflexivity|split; [auto|]].
      exists (world s). split; [auto|apply lookup_insert_eq].
    + destruct (lib_raise _ (world s)) as [e|] eqn:Hraise.
      { cbn -[lookup insert delete].
        repeat match goal with |- _ /\ _ => apply conj end;
          try reflexivity; try discriminate; eauto.
        intros [H|H]; discriminate H. }
      destruct (environ_set_error _ _) as [e|] eqn:Hset.
      { cbn -[lookup insert delete].
        repeat match goal with |- _ /\ _ => apply conj end;
          try reflexivity; try discriminate; eauto.
        intros [H|H]; discriminate H. }
      rewrite !prompt_if_unset_run. cbn [environ world].
      rewrite !(lookup_insert_ne _ _ _ _ Hne), Hempty, lookup_delete_eq.
      cbn [truthy].
      destruct (lib_raise (getpass_call "Enter API key for OpenAI: ") _) as [e|] eqn:Hraise2.
      { cbn -[lookup insert delete].
        repeat match goal with |- _ /\ _ => apply conj end;
          try reflexivity; try discriminate; eauto 10. }
      destruct (environ_set_error "OPENAI_API_KEY" _) as [e|] eqn:Hset2.
      { cbn -[lookup insert delete].
        repeat match goal with |- _ /\ _ => apply conj end;
          try reflexivity; try discriminate; eauto 10. }
      cbn -[lookup insert delete].
      repeat match goal with |- _ /\ _ => apply conj end;
        try reflexivity; eauto 10.
      intros _. split; [|split; [auto 10|]].
      * f_equal. apply map_eq. intros i.
        destruct (decide (i = "OPENAI_API_KEY")) as [->|Hi].
        { rewrite !lookup_insert_eq. reflexivity. }
        rewrite !(lookup_insert_ne _ "OPENAI_API_KEY") by auto.
        destruct (decide (i = "TAVILY_API_KEY")) as [->|Hj].
        { rewrite !lookup_insert_eq. reflexivity. }
        rewrite !lookup_insert_ne, lookup_delete_ne by auto. reflexivity.
      * eexists. split; [do 5 right; left; reflexivity|].
        apply lookup_insert_eq.
Qed.

End Credentials.



Lemma empty_credential_treated_as_missing_witness :
  let s := Demo.start Demo.env_empty_key (Demo.world_at Demo.monday false) in
  let s0 := Demo.start Demo.env_missing_key (Demo.world_at Demo.monday false) in
  In ("TAVILY_API_KEY:" +:+ LF)
     (prompts (trace (credential_setup (lib:=Demo.demo_lib)) s)) /\
  environ (final (credential_setup (lib:=Demo.demo_lib)) s) !! "TAVILY_API_KEY" =
    Some "tvly-typed" /\
  trace (credential_setup (lib:=Demo.demo_lib)) s =
  trace (credential_setup (lib:=Demo.demo_lib)) s0.
Proof.
  intros s s0.
  assert (Hs0 : s0 = {| environ := delete "TAVILY_API_KEY" (environ s);
                        world := world s |}).
  { unfold s0, s, Demo.start, Demo.env_empty_key, Demo.env_missing_key.
    cbn [environ world]. rewrite delete_insert_eq, delete_insert_ne by discriminate.
    rewrite delete_empty. reflexivity. }
  rewrite Hs0.
  assert (Hempty : environ s !! "TAVILY_API_KEY" = Some "")
    by (vm_compute; reflexivity).
  destruct (empty_credential_treated_as_missing (lib:=Demo.demo_lib) s
              "TAVILY_API_KEY" ("TAVILY_API_KEY:" +:+ LF)
              (or_introl (conj eq_refl eq_refl)) Hempty)
    as (_ & _ & _ & _ & Htrace & _ & Hprompt & Hcompletes & Hstored).
  assert (Hok : outcome (credential_setup (lib:=Demo.demo_lib)) s = Ok tt).
  { apply Hcompletes.
    - intros p w. reflexivity.
    - intros k p w [->| ->]; cbn; unfold Demo.demo_getpass;
        destruct (String.eqb p "Enter API key for OpenAI: "); reflexivity. }
  destruct (Hstored Hok) as (_ & _ & w & _ & Hlook).
  split; [apply Hprompt; left; reflexivity|].
  split; [exact Hlook|exact Htrace].
Defined.

(** ** Invocation *)

Section Invocation.

Context {W : Type} {lib : Library W}.
Implicit Types (s : state W) (evs : list event).

(** One turn of the loop. *)
Lemma stream_loop_cons a snap rest message s :
  stream_loop a (snap :: rest) message s =
  let w1 := lib_next (stream_next a) (world s) in
  let s1 := {| environ := environ s; world := w1 |} in
  match lib_raise (stream_next a) (world s) with
  | Some e => (s1, [Called (stream_next a) (Some e)], Raise e)
  | None =>
      match last (messages snap) with
      | None => (s1, [Called (stream_next a) None], Raise "IndexError")
      | Some m =>
          let o := if is_tuple m then print_message m else pretty_print m in
          let s2 := {| environ := environ s; world := lib_next (console o) w1 |} in
          match lib_raise (console o) w1 with
          | Some e =>
              (s2, [Called (stream_next a) None; Called (console o) (Some e)],
               Raise e)
          | None =>
              match stream_loop a rest (Some m) s2 with
              | (s3, evs, r) =>
                  (s3, Called (stream_next a) None :: printed o :: evs, r)
              end
          end
      end
  end.
Proof.
  cbn [stream_loop]. unfold bind, perform, last_message, emit.
  destruct (lib_raise (stream_next a) (world s)); [reflexivity|].
  destruct (last (messages snap)) as [m|]; [|reflexivity].
  cbn [ret raise environ world]. unfold perform.
  destruct (is_tuple m); cbn [environ world];
    (destruct (lib_raise (console _) _); [reflexivity|]);
    destruct (stream_loop a rest (Some m) _) as [[s3 evs] r]; reflexivity.
Qed.

(** The loop calls [stream] itself never, and prints, for the items it
    gets through, the last message of each, in order. *)
Lemma stream_loop_shows a items message s :
  stream_calls (trace (stream_loop a items message) s) = [] /\
  exists n,
    Forall2 shows (outputs (trace (stream_loop a items message) s))
            (take n items) /\
    (completes (stream_loop a items message) s -> n = length items).
Proof.
  revert message s. induction items as [|snap rest IH]; intros message s.
  - unfold trace, completes, outcome. cbn [stream_loop]. unfold perform.
    destruct (lib_raise (stream_next a) (world s)); cbn.
    + split; [reflexivity|]. exists 0%nat. split; [constructor|].
      intros [? [=]].
    + split; [reflexivity|]. exists 0%nat. split; [constructor|reflexivity].
  - unfold trace, completes, outcome. rewrite stream_loop_cons. cbv zeta.
    destruct (lib_raise (stream_next a) (world s)); cbn.
    { split; [reflexivity|]. exists 0%nat. split; [constructor|]. intros [? [=]]. }
    destruct (last (messages snap)) as [m|] eqn:Hlast; cbn.
    2:{ split; [reflexivity|]. exists 0%nat. split; [constructor|]. intros [? [=]]. }
    destruct (lib_raise (console _) _); cbn.
    { split; [reflexivity|]. exists 0%nat. split; [constructor|]. intros [? [=]]. }
    match goal with |- context [stream_loop a rest (Some m) ?s2] =>
      specialize (IH (Some m) s2);
      unfold trace, completes, outcome in IH;
      destruct (stream_loop a rest (Some m) s2) as [[s3 evs] r]
    end.
    cbn in *. destruct IH as (Hcalls & n & Hshown & Hn).
    split; [exact Hcalls|]. exists (S n). split.
    + cbn. constructor; [|exact Hshown]. exists m. split; [exact Hlast|reflexivity].
    + intros Hc. f_equal. apply Hn, Hc.
Qed.


End Invocation.


(** ** Exceptions *)

Section Exceptions.

Context {W : Type} {lib : Library W}.
Implicit Types (s : state W) (evs : list event).

Lemma honest_app (w : W) evs1 evs2 :
  honest w (evs1 ++ evs2) <->
  honest w evs1 /\ honest (replay (calls evs1) w) evs2.
Proof.
  revert w. induction evs1 as [|[k|k v|c r] evs1 IH]; intros w; cbn;
    rewrite ?IH; tauto.
Qed.

(** Every call of a computation made of the constructs got the library's
    answer. *)
Lemma built_honest (P : event -> Prop) {A} (m : M W A) :
  built P m -> forall s, honest (world s) (trace m s).
Proof.
  unfold trace.
  induction 1 as [A a|A e He|A c answer Hc|k Hk|k v Hk|f
                 |A B m k Hm IHm Hk IHk]; intros s; cbn; try exact I.
  - unfold perform. destruct (lib_raise c (world s)) eqn:Hr; cbn; auto.
  - unfold environ_set. destruct (environ_set_error k v); exact I.
  - pose proof (built_replay P m Hm s) as Hw. unfold final, trace in Hw.
    unfold bind. specialize (IHm s).
    destruct (m s) as [[s1 ev1] [a|e]] eqn:Hms; cbn [fst snd] in *;
      [|assumption].
    specialize (IHk a s ltac:(rewrite Hms; reflexivity) s1).
    destruct (k a s1) as [[s2 ev2] r]; cbn [fst snd] in *.
    apply honest_app. rewrite <- Hw. auto.
Qed.

Lemma app_cons_eq_snoc {A} (pre post pre' : list A) (x y : A) :
  pre ++ x :: post = pre' ++ [y] ->
  (post = [] /\ pre = pre' /\ x = y) \/
  (exists post', post = post' ++ [y] /\ pre' = pre ++ x :: post').
Proof.
  destruct post as [|z post _] using rev_ind; intros H.
  - left. apply app_inj_tail in H. tauto.
  - right. exists post. rewrite app_comm_cons, app_assoc in H.
    apply app_inj_tail in H. destruct H as [<- <-]. auto.
Qed.

(** C6: each library call of the notebook gets the library's answer; and
    when that answer is an exception, the call is the last event of the
    run, which ends with that exception: nothing catches it, nothing is
    tried again, nothing is done to recover. *)
Theorem library_exceptions_propagate s pre c r post :
  trace notebook s = pre ++ Called c r :: post ->
  r = lib_raise c (replay (calls pre) (world s)) /\
  (forall e, r = Some e -> post = [] /\ outcome notebook s = Raise e).
Proof.
  intros Htrace. split.
  - pose proof (built_honest _ _ built_notebook s) as Hh.
    rewrite Htrace in Hh. apply honest_app in Hh. destruct Hh as [_ Hh].
    cbn in Hh. tauto.
  - intros e ->.
    pose proof (built_uncaught _ _ built_notebook s) as Hu.
    rewrite Htrace in Hu.
    assert (Hnot : ~ Forall (fun ev => raises ev = false)
                     (pre ++ Called c (Some e) :: post)).
    { intros HF. apply Forall_app in HF. destruct HF as [_ HF].
      inversion HF as [|? ? Hr _]. discriminate Hr. }
    destruct (outcome notebook s) as [[]|e']; cbn in Hu; [contradiction|].
    destruct Hu as [(pre' & c' & Heq & Hpre')|[_ HF]]; [|contradiction].
    apply app_cons_eq_snoc in Heq.
    destruct Heq as [(-> & _ & [= _ ->])|(post' & _ & ->)]; [auto|].
    exfalso. apply Forall_app in Hpre'. destruct Hpre' as [_ HF].
    inversion HF as [|? ? Hr _]. discriminate Hr.
Qed.

End Exceptions.

Lemma library_exceptions_propagate_witness :
  let s := Demo.start Demo.env_set_up (Demo.world_at Demo.monday true) in
  outcome (notebook (lib:=Demo.demo_lib)) s = Raise "APIConnectionError".
Proof.
  intros s.
  refine (proj2 (proj2
    (library_exceptions_propagate (lib:=Demo.demo_lib) s
       (removelast (trace (notebook (lib:=Demo.demo_lib)) s))
       (stream_next (Demo.demo_agent Demo.monday (Some "sk-from-env")))
       (Some "APIConnectionError") [] _)
    "APIConnectionError" eq_refl)).
  vm_compute. reflexivity.
Defined.

(** ** The vector store *)

Section VectorStore.

Context {W : Type} {lib : Library W}.
Implicit Types (s : state W) (evs : list event).

(** What the world holds of the persisted collection. *)
Variable Collection : Type.
Variable store_of : W -> Collection.

(** The library's contract: only a writing method changes the
    collection; opening it and querying it do not. *)
Hypothesis read_only :
  forall c w, is_write c = false -> store_of (lib_next c w) = store_of w.

Lemma replay_read_only (cs : list call) (w : W) :
  Forall (fun c => is_write c = false) cs ->
  store_of (replay cs w) = store_of w.
Proof.
  intros H. revert w. induction H as [|c cs Hc _ IH]; intros w; cbn.
  - reflexivity.
  - unfold replay in IH. rewrite IH. apply read_only, Hc.
Qed.

Lemma notebook_event_not_write evs :
  Forall notebook_event evs -> Forall (fun c => is_write c = false) (calls evs).
Proof.
  induction 1 as [|e evs He _ IH]; cbn; [constructor|].
  destruct e as [k|k v|c r]; cbn; try assumption.
  constructor; [|assumption]. destruct c; cbn in *; try reflexivity.
  contradiction.
Qed.

Lemma notebook_event_store evs :
  Forall notebook_event evs -> Forall (fun v => v = crm_store) (stores_built evs).
Proof.
  induction 1 as [|e evs He _ IH]; cbn; [constructor|].
  destruct e as [k|k v|c r]; cbn; try assumption.
  destruct c as [| |obj| | | | | |]; cbn; try assumption.
  destruct obj; cbn in *; try assumption. constructor; assumption.
Qed.

(** C7: the notebook opens the vector store and never writes to it.  In
    every run, the only vector store opened is the collection "crm" of the
    directory "supplemental/db", every retriever constructed, queried or
    wrapped as a tool is on it ([notebook_event]), no call is a writing
    method, and, the library changing the collection by its writing
    methods only, the collection is after each call of the run, and at its
    end, what it was at the start. *)
Theorem vector_store_only_opened s :
  let evs := trace notebook s in
  Forall notebook_event evs /\
  Forall (fun v => v = Chroma "crm" OpenAIEmbeddings "supplemental/db")
         (stores_built evs) /\
  Forall (fun c => is_write c = false) (calls evs) /\
  (forall n, store_of (replay (take n (calls evs)) (world s)) = store_of (world s)) /\
  store_of (world (final notebook s)) = store_of (world s).
Proof.
  cbv zeta.
  pose proof (built_events _ _ built_notebook s) as Hev.
  pose proof (notebook_event_not_write _ Hev) as Hcalls.
  split; [exact Hev|]. split; [exact (notebook_event_store _ Hev)|].
  split; [exact Hcalls|]. split.
  - intros n. apply replay_read_only. apply Forall_take, Hcalls.
  - rewrite (built_replay _ _ built_notebook s).
    apply replay_read_only, Hcalls.
Qed.

End VectorStore.

Lemma vector_store_only_opened_witness :
  let s := Demo.start Demo.env_set_up (Demo.world_at Demo.monday false) in
  Demo.crm (world (final (notebook (lib:=Demo.demo_lib)) s)) = Demo.crm (world s).
Proof.
  intros s.
  refine (proj2 (proj2 (proj2 (proj2
    (vector_store_only_opened (lib:=Demo.demo_lib) _ Demo.crm _ s))))).
  intros c w Hc. destruct c; try reflexivity. discriminate Hc.
Defined.

(** ** Conditions owned by the notebook *)

(** From [completes m s] to the run of [m]. *)
Ltac completed H :=
  let a := fresh "a" in
  destruct H as [a H]; apply outcome_run in H;
  let s' := fresh "s'" in
  let evs := fresh "evs" in
  destruct H as (s' & evs & H).

(** A step without a condition of its own: both completed runs are taken
    apart and show the same actions. *)
Ltac straight_line :=
  let s1 := fresh "s1" in
  let s2 := fresh "s2" in
  let H1 := fresh "H1" in
  let H2 := fresh "H2" in
  intros s1 s2 H1 H2 _; completed H1; completed H2;
  unfold trace; rewrite H1, H2; cbn [fst snd];
  run_inv; reflexivity.

Section OwnedConditions.

Context {W : Type} {lib : Library W}.
Implicit Types (s : state W) (evs : list event).

Lemma prompt_if_unset_actions key prompt s s' evs x :
  prompt_if_unset key prompt s = (s', evs, Ok x) ->
  map action evs =
    "os.environ.get" ::
    (if truthy (environ s !! key) then []
     else ["getpass.getpass"; "os.environ.__setitem__"]) /\
  world s' = (if truthy (environ s !! key) then world s
              else lib_next (getpass_call prompt) (world s)) /\
  (forall k, k <> key -> environ s' !! k = environ s !! k).
Proof.
  rewrite prompt_if_unset_run. destruct (truthy (environ s !! key)).
  - intros [= <- <- _]. auto.
  - destruct (lib_raise _ _); [discriminate|].
    destruct (environ_set_error _ _); intros [= <- <- _]. cbn [environ world].
    repeat split. intros k Hk. apply lookup_insert_ne. auto.
Qed.

Lemma credential_setup_actions s s' evs x :
  credential_setup s = (s', evs, Ok x) ->
  map action evs =
    ("os.environ.get" ::
     (if truthy (environ s !! "TAVILY_API_KEY") then []
      else ["getpass.getpass"; "os.environ.__setitem__"])) ++
    ("os.environ.get" ::
     (if truthy (environ s !! "OPENAI_API_KEY") then []
      else ["getpass.getpass"; "os.environ.__setitem__"])).
Proof.
  intros H. unfold credential_setup in H. apply bind_inv_Ok in H.
  destruct H as (s1 & ev1 & [] & ev2 & H1 & H2 & ->).
  apply prompt_if_unset_actions in H1. destruct H1 as (H1 & _ & Henv).
  apply prompt_if_unset_actions in H2. destruct H2 as (H2 & _ & _).
  rewrite map_app, H1, H2. rewrite Henv by discriminate. reflexivity.
Qed.

Lemma stream_loop_actions a items message s s' evs x :
  stream_loop a items message s = (s', evs, Ok x) ->
  map action evs =
    concat (map (fun snap =>
                   match is_tuple <$> last (messages snap) with
                   | Some true => ["next"; "print"]
                   | Some false => ["next"; "pretty_print"]
                   | None => ["next"]
                   end) items) ++ ["next"].
Proof.
  revert message s s' evs. induction items as [|snap rest IH];
    intros message s s' evs H.
  - cbn [stream_loop] in H. run_inv. reflexivity.
  - rewrite stream_loop_cons in H. cbv zeta in H. cbn [map concat].
    destruct (lib_raise (stream_next a) _); [discriminate|].
    destruct (last (messages snap)) as [m|]; [|discriminate].
    destruct (lib_raise (console _) _); [discriminate|].
    destruct (stream_loop a rest (Some m) _) as [[s3 ev3] r] eqn:Hrest.
    injection H as <- <- ->. apply IH in Hrest. cbn. rewrite Hrest.
    destruct (is_tuple m); reflexivity.
Qed.

(** Straight-line cells are run call by call. *)
Ltac call_by_call :=
  cbv zeta; unfold run_steps; cbn [for_each run_step];
  unfold build, emit, finish, bind, perform, environ_get, raise, ret;
  cbn [environ world app fst snd];
  repeat (match goal with
          | |- context [lib_raise ?c ?w] =>
              destruct (lib_raise c w); cbn [environ world app fst snd];
              try reflexivity
          end).

Lemma runs_vector_store_cell :
  runs (vector_store_cell (lib:=lib))
    (fun _ => [Call (construct (OEmbeddings OpenAIEmbeddings));
               Call (construct (OVectorStore crm_store))])
    (fun _ => Ok crm_store).
Proof.
  intros s. unfold vector_store_cell, crm_store. call_by_call.
Qed.

Lemma runs_retriever_cell v :
  runs (retriever_cell (lib:=lib) v)
    (fun _ => [Call (construct (ORetriever (as_retriever v)));
               Call (retriever_invoke (as_retriever v) "robotics use case")])
    (fun s => Ok (as_retriever v,
                  lib_retrieve (as_retriever v) "robotics use case"
                    (lib_next (construct (ORetriever (as_retriever v)))
                              (world s)))).
Proof.
  intros s. unfold retriever_cell. call_by_call.
Qed.

Lemma runs_tools_cell r :
  runs (tools_cell (lib:=lib) r)
    (fun _ =>
       [Call (construct (OTool (as_tool r "vector_search" vector_search_description)));
        Call (construct (OTool (TavilySearch 10 "general")));
        Call (construct (OTool (TavilyExtract "advanced")));
        Call (construct (OTool TavilyCrawl))])
    (fun _ => Ok (as_tool r "vector_search" vector_search_description,
                  TavilySearch 10 "general", TavilyExtract "advanced",
                  TavilyCrawl)).
Proof.
  intros s. unfold tools_cell. call_by_call.
Qed.

Lemma runs_models_cell :
  runs (models_cell (lib:=lib))
    (fun s =>
       let k := environ s !! "OPENAI_API_KEY" in
       [Read "OPENAI_API_KEY";
        Call (construct (OModel (ChatOpenAI "o3-mini-2025-01-31" k)));
        Read "OPENAI_API_KEY";
        Call (construct (OModel (ChatOpenAI "gpt-4.1" k)))])
    (fun s =>
       let k := environ s !! "OPENAI_API_KEY" in
       Ok (ChatOpenAI "o3-mini-2025-01-31" k, ChatOpenAI "gpt-4.1" k)).
Proof.
  intros s. unfold models_cell. call_by_call.
Qed.

Lemma runs_agent_cell g se c e v :
  runs (agent_cell (lib:=lib) g se c e v)
    (fun s =>
       let today := strftime (lib_today (world s)) in
       let prompt := from_messages [RoleEntry "system" (system_prompt today);
                                    MessagesPlaceholder "messages"] in
       [Call datetime_today;
        Call (construct (OPrompt prompt));
        Call (construct (OAgent (create_react_agent g [se; c; e; v] prompt
                                   "hybrid_agent")))])
    (fun s =>
       let today := strftime (lib_today (world s)) in
       let prompt := from_messages [RoleEntry "system" (system_prompt today);
                                    MessagesPlaceholder "messages"] in
       Ok (create_react_agent g [se; c; e; v] prompt "hybrid_agent")).
Proof.
  intros s. unfold agent_cell. call_by_call.
Qed.

Lemma runs_final_output_cell m :
  runs (final_output_cell (W:=W) m)
    (fun _ => match m with
              | Some (ObjectMessage _ content) => [Call (console (Markdown content))]
              | _ => []
              end)
    (fun _ => match m with
              | None => Raise "NameError"
              | Some (TupleMessage _ _) => Raise "AttributeError"
              | Some (ObjectMessage _ _) => Ok tt
              end).
Proof.
  intros s. unfold final_output_cell.
  destruct m as [[role content|type content]|]; cbn [content_of];
    try reflexivity.
  call_by_call.
Qed.

Lemma runs_print_results_cell rs :
  runs (print_results_cell (lib:=lib) rs)
    (fun _ => flat_map (fun result =>
                          [Call (console (print_text (page_content result)));
                           Call (console (print_text LF))]) rs)
    (fun _ => Ok tt).
Proof.
  unfold runs, print_results_cell, run_steps.
  induction rs as [|result rest IH]; intros s; [reflexivity|].
  cbn [flat_map for_each app run_step].
  unfold bind, emit, perform. cbn [environ world].
  destruct (lib_raise _ (world s)); [reflexivity|].
  destruct (lib_raise (console (print_text LF)) _); [reflexivity|].
  rewrite IH. unfold bind, finish.
  destruct (for_each _ _ _) as [[s2 ev2] [[]|e2]]; cbn [app]; try reflexivity.
Qed.

(** The credential statements are run case by case. *)
Ltac case_by_case :=
  repeat first
    [ reflexivity
    | match goal with
      | H : false = true |- _ => discriminate H
      | H : true = false |- _ => discriminate H
      end
    | progress cbn [for_each run_step app environ world fst snd]
    | progress unfold bind, build, perform, environ_get, environ_set, getpass, ret,
        finish, load_dotenv, update_environ
    | rewrite prompt_if_unset_run
    | rewrite lookup_insert_ne by discriminate
    | rewrite lookup_insert_eq
    | match goal with
      | |- context [truthy ?v] => destruct (truthy v) eqn:?
      end
    | match goal with
      | |- context [lib_raise ?c ?w] => destruct (lib_raise c w)
      end
    | match goal with
      | |- context [environ_set_error ?k ?v] => destruct (environ_set_error k v)
      end ].

Lemma runs_prompt_if_unset key prompt :
  runs (prompt_if_unset key prompt)
    (fun s => credential_steps key prompt (environ s !! key)
                (lib_getpass prompt (world s)))
    (fun _ => Ok tt).
Proof.
  intros s. rewrite prompt_if_unset_run. unfold credential_steps, run_steps.
  case_by_case.
Qed.

Lemma runs_credential_setup :
  runs (credential_setup (lib:=lib))
    (fun s =>
       let tavily := environ s !! "TAVILY_API_KEY" in
       let openai := environ s !! "OPENAI_API_KEY" in
       let asked := if truthy tavily then world s
                    else lib_next (getpass_call ("TAVILY_API_KEY:" +:+ LF)) (world s) in
       credential_steps "TAVILY_API_KEY" ("TAVILY_API_KEY:" +:+ LF) tavily
         (lib_getpass ("TAVILY_API_KEY:" +:+ LF) (world s)) ++
       credential_steps "OPENAI_API_KEY" "Enter API key for OpenAI: " openai
         (lib_getpass "Enter API key for OpenAI: " asked))
    (fun _ => Ok tt).
Proof.
  intros s. cbv zeta. rewrite credential_setup_run.
  unfold credential_steps, run_steps.
  case_by_case.
Qed.

Lemma runs_setup_cell :
  runs (setup_cell (lib:=lib))
    (fun s =>
       let env := lib_dotenv (world s) (environ s) in
       let loaded := lib_next load_dotenv_call (world s) in
       let tavily := env !! "TAVILY_API_KEY" in
       let openai := env !! "OPENAI_API_KEY" in
       let typed := lib_getpass ("TAVILY_API_KEY:" +:+ LF) loaded in
       let asked := if truthy tavily then loaded
                    else lib_next (getpass_call ("TAVILY_API_KEY:" +:+ LF)) loaded in
       [Call load_dotenv_call] ++
       credential_steps "TAVILY_API_KEY" ("TAVILY_API_KEY:" +:+ LF) tavily typed ++
       credential_steps "OPENAI_API_KEY" "Enter API key for OpenAI: " openai
         (lib_getpass "Enter API key for OpenAI: " asked) ++
       [Read "TAVILY_API_KEY";
        Call (construct (OClient (TavilyClient
                (if truthy tavily then tavily else Some typed))))])
    (fun s =>
       let env := lib_dotenv (world s) (environ s) in
       let loaded := lib_next load_dotenv_call (world s) in
       let tavily := env !! "TAVILY_API_KEY" in
       Ok (TavilyClient
             (if truthy tavily then tavily
              else Some (lib_getpass ("TAVILY_API_KEY:" +:+ LF) loaded)))).
Proof.
  intros s. cbv zeta. unfold setup_cell, credential_setup.
  unfold credential_steps, run_steps.
  case_by_case.
Qed.

Lemma runs_stream_loop a items message :
  runs (stream_loop (lib:=lib) a items message)
    (fun _ => loop_steps a items) (fun _ => loop_end items message).
Proof.
  unfold runs, run_steps. revert message.
  induction items as [|snap rest IH]; intros message s.
  - cbn [stream_loop loop_steps loop_end for_each run_step].
    unfold bind, perform, finish, ret.
    destruct (lib_raise _ _); reflexivity.
  - rewrite stream_loop_cons. cbv zeta.
    cbn [loop_steps loop_end for_each run_step].
    unfold bind, perform, finish. cbn [environ world].
    destruct (lib_raise (stream_next a) (world s)); [reflexivity|].
    destruct (last (messages snap)) as [m|]; [|reflexivity].
    cbn [for_each run_step]. unfold bind, perform. cbn [environ world].
    destruct (lib_raise (console _) _); [reflexivity|].
    rewrite IH. unfold bind, finish.
    destruct (for_each _ _ _) as [[s3 ev3] [[]|e3]]; reflexivity.
Qed.

Lemma runs_invoke_cell a question message :
  runs (invoke_cell (lib:=lib) a question message)
    (fun s =>
       Call (agent_stream a [HumanMessage question] "values") ::
       loop_steps a (lib_stream a [HumanMessage question] "values" (world s)))
    (fun s =>
       loop_end (lib_stream a [HumanMessage question] "values" (world s)) message).
Proof.
  intros s. unfold invoke_cell, run_steps. cbv zeta.
  cbn [for_each run_step].
  unfold bind, perform. cbn [environ world].
  destruct (lib_raise _ (world s)); [reflexivity|].
  rewrite runs_stream_loop. unfold run_steps, bind, finish.
  destruct (for_each _ _ _) as [[s3 ev3] [[]|e3]]; reflexivity.
Qed.

(** C5, as the code has it.  The steps that construct the vector store,
    the retriever, the tools, the models and the agent, and the step that
    prints the search results, are straight-line code: each runs the list
    of steps given here, with the arguments the cell writes and the data
    passed through as it is, all of them unless a call raises, and raises
    nothing of its own.  The notebook evaluates three conditions of its
    own: the two truthiness tests on the credentials, each of which
    decides between nothing and a prompt followed by an assignment, and
    the test [isinstance(message, tuple)], which decides between [print]
    and [pretty_print] for each streamed item; with them decided, the
    setup and the invocation are straight-line too, their loops running
    once per element of the sequence a library returned.  Apart from these
    tests, the data decide only where the interpreter raises:
    [s["messages"][-1]] on an item without messages, [message.content] on
    an unbound [message] or on a tuple, and the assignment to [os.environ]
    of a text it refuses.  Hence, of completed runs: a step without a
    condition performs the same actions in all of them, and the setup and
    the invocation perform the actions the three tests select. *)
Theorem steps_determined_by_owned_conditions :
  runs (vector_store_cell (lib:=lib))
    (fun _ => [Call (construct (OEmbeddings OpenAIEmbeddings));
               Call (construct (OVectorStore crm_store))])
    (fun _ => Ok crm_store) /\
  (forall v,
     runs (retriever_cell (lib:=lib) v)
       (fun _ => [Call (construct (ORetriever (as_retriever v)));
                  Call (retriever_invoke (as_retriever v) "robotics use case")])
       (fun s => Ok (as_retriever v,
                     lib_retrieve (as_retriever v) "robotics use case"
                       (lib_next (construct (ORetriever (as_retriever v)))
                                 (world s))))) /\
  (forall rs,
     runs (print_results_cell (lib:=lib) rs)
       (fun _ => flat_map (fun result =>
                             [Call (console (print_text (page_content result)));
                              Call (console (print_text LF))]) rs)
       (fun _ => Ok tt)) /\
  (forall r,
     runs (tools_cell (lib:=lib) r)
       (fun _ =>
          [Call (construct (OTool (as_tool r "vector_search"
                                     vector_search_description)));
           Call (construct (OTool (TavilySearch 10 "general")));
           Call (construct (OTool (TavilyExtract "advanced")));
           Call (construct (OTool TavilyCrawl))])
       (fun _ => Ok (as_tool r "vector_search" vector_search_description,
                     TavilySearch 10 "general", TavilyExtract "advanced",
                     TavilyCrawl))) /\
  runs (models_cell (lib:=lib))
    (fun s =>
       let k := environ s !! "OPENAI_API_KEY" in
       [Read "OPENAI_API_KEY";
        Call (construct (OModel (ChatOpenAI "o3-mini-2025-01-31" k)));
        Read "OPENAI_API_KEY";
        Call (construct (OModel (ChatOpenAI "gpt-4.1" k)))])
    (fun s =>
       let k := environ s !! "OPENAI_API_KEY" in
       Ok (ChatOpenAI "o3-mini-2025-01-31" k, ChatOpenAI "gpt-4.1" k)) /\
  (forall g se c e v,
     runs (agent_cell (lib:=lib) g se c e v)
       (fun s =>
          let today := strftime (lib_today (world s)) in
          let prompt := from_messages [RoleEntry "system" (system_prompt today);
                                       MessagesPlaceholder "messages"] in
          [Call datetime_today;
           Call (construct (OPrompt prompt));
           Call (construct (OAgent (create_react_agent g [se; c; e; v] prompt
                                      "hybrid_agent")))])
       (fun s =>
          let today := strftime (lib_today (world s)) in
          let prompt := from_messages [RoleEntry "system" (system_prompt today);
                                       MessagesPlaceholder "messages"] in
          Ok (create_react_agent g [se; c; e; v] prompt "hybrid_agent"))) /\
  (forall m,
     runs (final_output_cell (W:=W) m)
       (fun _ => match m with
                 | Some (ObjectMessage _ content) =>
                     [Call (console (Markdown content))]
                 | _ => []
                 end)
       (fun _ => match m with
                 | None => Raise "NameError"
                 | Some (TupleMessage _ _) => Raise "AttributeError"
                 | Some (ObjectMessage _ _) => Ok tt
                 end)) /\
  (forall key prompt,
     runs (prompt_if_unset (lib:=lib) key prompt)
       (fun s =>
          Read key ::
          (if truthy (environ s !! key) then []
           else [Call (getpass_call prompt);
                 Store key (lib_getpass prompt (world s))]))
       (fun _ => Ok tt)) /\
  runs (credential_setup (lib:=lib))
    (fun s =>
       let tavily := environ s !! "TAVILY_API_KEY" in
       let openai := environ s !! "OPENAI_API_KEY" in
       let asked := if truthy tavily then world s
                    else lib_next (getpass_call ("TAVILY_API_KEY:" +:+ LF)) (world s) in
       credential_steps "TAVILY_API_KEY" ("TAVILY_API_KEY:" +:+ LF) tavily
         (lib_getpass ("TAVILY_API_KEY:" +:+ LF) (world s)) ++
       credential_steps "OPENAI_API_KEY" "Enter API key for OpenAI: " openai
         (lib_getpass "Enter API key for OpenAI: " asked))
    (fun _ => Ok tt) /\
  runs (setup_cell (lib:=lib))
    (fun s =>
       let env := lib_dotenv (world s) (environ s) in
       let loaded := lib_next load_dotenv_call (world s) in
       let tavily := env !! "TAVILY_API_KEY" in
       let openai := env !! "OPENAI_API_KEY" in
       let typed := lib_getpass ("TAVILY_API_KEY:" +:+ LF) loaded in
       let asked := if truthy tavily then loaded
                    else lib_next (getpass_call ("TAVILY_API_KEY:" +:+ LF)) loaded in
       [Call load_dotenv_call] ++
       credential_steps "TAVILY_API_KEY" ("TAVILY_API_KEY:" +:+ LF) tavily typed ++
       credential_steps "OPENAI_API_KEY" "Enter API key for OpenAI: " openai
         (lib_getpass "Enter API key for OpenAI: " asked) ++
       [Read "TAVILY_API_KEY";
        Call (construct (OClient (TavilyClient
                (if truthy tavily then tavily else Some typed))))])
    (fun s =>
       let env := lib_dotenv (world s) (environ s) in
       let loaded := lib_next load_dotenv_call (world s) in
       let tavily := env !! "TAVILY_API_KEY" in
       Ok (TavilyClient
             (if truthy tavily then tavily
              else Some (lib_getpass ("TAVILY_API_KEY:" +:+ LF) loaded)))) /\
  (forall a question message,
     runs (invoke_cell (lib:=lib) a question message)
       (fun s =>
          Call (agent_stream a [HumanMessage question] "values") ::
          loop_steps a (lib_stream a [HumanMessage question] "values" (world s)))
       (fun s =>
          loop_end (lib_stream a [HumanMessage question] "values" (world s))
                   message)) /\
  branch_free (vector_store_cell (lib:=lib)) /\
  (forall v, branch_free (retriever_cell (lib:=lib) v)) /\
  (forall r, branch_free (tools_cell (lib:=lib) r)) /\
  branch_free (models_cell (lib:=lib)) /\
  (forall g se c e v, branch_free (agent_cell (lib:=lib) g se c e v)) /\
  (forall m, branch_free (final_output_cell (W:=W) m)) /\
  (forall rs1 rs2 s1 s2,
     completes (print_results_cell (lib:=lib) rs1) s1 ->
     completes (print_results_cell (lib:=lib) rs2) s2 ->
     length rs1 = length rs2 ->
     map action (trace (print_results_cell rs1) s1) =
     map action (trace (print_results_cell rs2) s2)) /\
  determined_by (credential_setup (lib:=lib))
    (fun s => (truthy (environ s !! "TAVILY_API_KEY"),
               truthy (environ s !! "OPENAI_API_KEY"))) /\
  determined_by (setup_cell (lib:=lib))
    (fun s => let env := lib_dotenv (world s) (environ s) in
              (truthy (env !! "TAVILY_API_KEY"),
               truthy (env !! "OPENAI_API_KEY"))) /\
  (forall a question message,
     determined_by (invoke_cell (lib:=lib) a question message)
       (fun s => map (fun snap => is_tuple <$> last (messages snap))
                     (lib_stream a [HumanMessage question] "values" (world s)))).
Proof.
  repeat apply conj.
  - exact runs_vector_store_cell.
  - exact runs_retriever_cell.
  - exact runs_print_results_cell.
  - exact runs_tools_cell.
  - exact runs_models_cell.
  - exact runs_agent_cell.
  - exact runs_final_output_cell.
  - exact runs_prompt_if_unset.
  - exact runs_credential_setup.
  - exact runs_setup_cell.
  - exact runs_invoke_cell.
  - unfold branch_free, determined_by, vector_store_cell. straight_line.
  - intros v. unfold branch_free, determined_by, retriever_cell. straight_line.
  - intros r. unfold branch_free, determined_by, tools_cell. straight_line.
  - unfold branch_free, determined_by, models_cell. straight_line.
  - intros g se c e v. unfold branch_free, determined_by, agent_cell.
    straight_line.
  - intros m s1 s2 H1 H2 _. completed H1. completed H2.
    unfold trace. rewrite H1, H2. cbn [fst snd].
    unfold final_output_cell in H1, H2.
    destruct m as [m|]; [|discriminate]. destruct (content_of m); [|discriminate].
    run_inv. reflexivity.
  - intros rs1 rs2 s1 s2 H1 H2 Hlen. completed H1. completed H2.
    unfold trace. rewrite H1, H2. cbn [fst snd].
    apply print_results_cell_inv in H1, H2.
    destruct H1 as [-> _], H2 as [-> _]. unfold results_printed.
    revert rs2 Hlen. induction rs1 as [|r1 rs1 IH]; intros [|r2 rs2] Hlen;
      try discriminate; cbn; [reflexivity|].
    do 2 f_equal. apply IH. cbn in Hlen. lia.
  - intros s1 s2 H1 H2 [= HT HO]. completed H1. completed H2.
    unfold trace. rewrite H1, H2. cbn [fst snd].
    apply credential_setup_actions in H1, H2. rewrite H1, H2, HT, HO.
    reflexivity.
  - intros s1 s2 H1 H2 [= HT HO]. completed H1. completed H2.
    unfold trace. rewrite H1, H2. cbn [fst snd].
    unfold setup_cell in H1, H2.
    apply bind_inv_Ok in H1. destruct H1 as (? & ? & ? & ? & Hd1 & H1 & ->).
    apply bind_inv_Ok in H1. destruct H1 as (? & ? & ? & ? & Hc1 & H1 & ->).
    apply bind_inv_Ok in H2. destruct H2 as (? & ? & ? & ? & Hd2 & H2 & ->).
    apply bind_inv_Ok in H2. destruct H2 as (? & ? & ? & ? & Hc2 & H2 & ->).
    apply credential_setup_actions in Hc1, Hc2.
    run_inv. cbn [environ] in Hc1, Hc2.
    rewrite !map_app, Hc1, Hc2, HT, HO. reflexivity.
  - intros a question message s1 s2 H1 H2 Hkey. completed H1. completed H2.
    unfold trace. rewrite H1, H2. cbn [fst snd].
    unfold invoke_cell in H1, H2.
    apply bind_inv_Ok in H1. destruct H1 as (? & ? & ? & ? & Hs1 & H1 & ->).
    apply bind_inv_Ok in H2. destruct H2 as (? & ? & ? & ? & Hs2 & H2 & ->).
    apply stream_loop_actions in H1, H2. run_inv.
    rewrite !map_app, H1, H2. cbn [map action call_name app].
    do 2 f_equal. revert Hkey.
    generalize (lib_stream a [HumanMessage question] "values" (world s1)).
    generalize (lib_stream a [HumanMessage question] "values" (world s2)).
    intros l2 l1. revert l2. induction l1 as [|snap1 l1 IH]; intros [|snap2 l2];
      cbn; try discriminate; [reflexivity|].
    intros [= Hx Hl]. rewrite Hx. f_equal. apply IH, Hl.
Qed.

End OwnedConditions.

(** C5 as stated fails on the setup step: two completed runs of the two
    credential statements, one with both variables set and one with
    [TAVILY_API_KEY] missing, do not perform the same actions; the second
    one prompts and writes the variable. *)
Lemma credential_setup_branches :
  ~ branch_free (credential_setup (lib:=Demo.demo_lib)).
Proof.
  intros H.
  specialize (H (Demo.start Demo.env_set_up (Demo.world_at Demo.monday false))
                (Demo.start Demo.env_missing_key (Demo.world_at Demo.monday false))).
  assert (Hc1 : completes (credential_setup (lib:=Demo.demo_lib))
                  (Demo.start Demo.env_set_up (Demo.world_at Demo.monday false)))
    by (exists tt; vm_compute; reflexivity).
  assert (Hc2 : completes (credential_setup (lib:=Demo.demo_lib))
                  (Demo.start Demo.env_missing_key (Demo.world_at Demo.monday false)))
    by (exists tt; vm_compute; reflexivity).
  specialize (H Hc1 Hc2 eq_refl). vm_compute in H. discriminate H.
Qed.

(** ** The date in the prompt *)

Section Strings.

Lemma length_append (a b : string) :
  String.length (a +:+ b) = (String.length a + String.length b)%nat.
Proof. induction a as [|c a IH]; simpl; [reflexivity|]. rewrite IH. reflexivity. Qed.

Lemma append_inv_tail (a b t : string) : a +:+ t = b +:+ t -> a = b.
Proof.
  revert b. induction a as [|c a IH]; intros [|c' b] H; simpl in H.
  - reflexivity.
  - apply (f_equal String.length) in H.
    change (String.length t = S (String.length (b +:+ t))) in H.
    rewrite length_append in H. lia.
  - apply (f_equal String.length) in H.
    change (S (String.length (a +:+ t)) = String.length t) in H.
    rewrite length_append in H. lia.
  - injection H as -> H. f_equal. apply IH, H.
Qed.

Lemma append_inv_head (h a b : string) : h +:+ a = h +:+ b -> a = b.
Proof. induction h as [|c h IH]; simpl; [auto|]. intros [= H]. auto. Qed.

(** Two texts that continue with the separator [c], which neither
    contains, are equal, and so is what follows the separator. *)
Lemma append_separator_inj (c : ascii) (a b x y : string) :
  has_char c a = false -> has_char c b = false ->
  a +:+ String c x = b +:+ String c y -> a = b /\ x = y.
Proof.
  revert b. induction a as [|ca a IH]; intros [|cb b] Ha Hb H; simpl in *.
  - injection H as ->. auto.
  - injection H as -> _. rewrite Ascii.eqb_refl in Hb. discriminate.
  - injection H as -> _. rewrite Ascii.eqb_refl in Ha. discriminate.
  - injection H as -> H.
    destruct (Ascii.eqb c cb); [discriminate|].
    destruct (IH b Ha Hb H) as [-> ->]. auto.
Qed.

End Strings.

Section Dates.

Implicit Types d : datetime.

Lemma weekday_name_no_comma (w : Z) : has_char "," (weekday_name w) = false.
Proof. unfold weekday_name. repeat case_match; reflexivity. Qed.

Lemma month_name_no_space (m : Z) : has_char " " (month_name m) = false.
Proof. unfold month_name. repeat case_match; reflexivity. Qed.

Lemma month_name_inj (m1 m2 : Z) :
  1 <= m1 <= 12 -> 1 <= m2 <= 12 -> month_name m1 = month_name m2 -> m1 = m2.
Proof.
  unfold month_name. intros H1 H2.
  repeat match goal with
         | |- context [?a =? ?b] => destruct (Z.eqb_spec a b)
         end; intros H; try discriminate H; lia.
Qed.

Lemma digit_no_comma (x : N) : (x < 10)%N -> Ascii.eqb "," (pretty_N_char x) = false.
Proof.
  intros H.
  assert (Hx : In x [0; 1; 2; 3; 4; 5; 6; 7; 8; 9]%N) by (cbn; lia).
  cbn in Hx. repeat destruct Hx as [<-|Hx]; try reflexivity. destruct Hx.
Qed.

Lemma two_digits_no_comma (n : Z) :
  0 <= n < 100 -> has_char "," (two_digits n) = false.
Proof.
  intros H. unfold two_digits. cbn [has_char].
  assert (0 <= n / 10 < 10) by (split; [apply Z.div_pos|apply Z.div_lt_upper_bound]; lia).
  assert (0 <= n mod 10 < 10) by (apply Z.mod_pos_bound; lia).
  rewrite !digit_no_comma by lia. reflexivity.
Qed.

Lemma two_digits_inj (n1 n2 : Z) :
  0 <= n1 < 100 -> 0 <= n2 < 100 -> two_digits n1 = two_digits n2 -> n1 = n2.
Proof.
  intros H1 H2. unfold two_digits. intros [= Hq Hr].
  assert (0 <= n1 / 10 < 10) by (split; [apply Z.div_pos|apply Z.div_lt_upper_bound]; lia).
  assert (0 <= n2 / 10 < 10) by (split; [apply Z.div_pos|apply Z.div_lt_upper_bound]; lia).
  assert (0 <= n1 mod 10 < 10) by (apply Z.mod_pos_bound; lia).
  assert (0 <= n2 mod 10 < 10) by (apply Z.mod_pos_bound; lia).
  apply pretty_N_char_inj in Hq; [|lia|lia].
  apply pretty_N_char_inj in Hr; [|lia|lia].
  rewrite (Z.div_mod n1 10), (Z.div_mod n2 10) by lia. lia.
Qed.

Lemma days_in_month_bound (y m : Z) : 28 <= days_in_month y m <= 31.
Proof. unfold days_in_month. repeat case_match; lia. Qed.

Lemma valid_date_bounds d :
  valid_date d = true ->
  1 <= year d <= 9999 /\ 1 <= month d <= 12 /\ 1 <= day d <= 31.
Proof.
  unfold valid_date. intros H.
  pose proof (days_in_month_bound (year d) (month d)).
  repeat (apply andb_prop in H; destruct H as [H ?]). lia.
Qed.

(** The formatted date tells the year, the month and the day. *)
Lemma strftime_inj d1 d2 :
  valid_date d1 = true -> valid_date d2 = true ->
  strftime d1 = strftime d2 -> same_date d1 d2.
Proof.
  intros V1 V2 H. apply valid_date_bounds in V1, V2. unfold strftime in H.
  change (", " +:+ ?x) with (String "," (String " " x)) in H.
  apply append_separator_inj in H; try apply weekday_name_no_comma.
  destruct H as [_ [= H]].
  change (" " +:+ ?x) with (String " " x) in H.
  apply append_separator_inj in H; try apply month_name_no_space.
  destruct H as [Hm H]. apply month_name_inj in Hm; [|lia|lia].
  apply append_separator_inj in H; try (apply two_digits_no_comma; lia).
  destruct H as [Hd [= Hy]]. apply two_digits_inj in Hd; [|lia|lia].
  apply (inj pretty) in Hy. repeat split; assumption.
Qed.

Lemma strftime_same_date d1 d2 : same_date d1 d2 -> strftime d1 = strftime d2.
Proof.
  intros (Hy & Hm & Hd). unfold strftime, weekday, toordinal.
  rewrite Hy, Hm, Hd. reflexivity.
Qed.

Lemma system_prompt_inj (t1 t2 : string) :
  system_prompt t1 = system_prompt t2 -> t1 = t2.
Proof.
  unfold system_prompt. intros H. apply append_inv_head in H.
  apply append_inv_tail in H. exact H.
Qed.

End Dates.

Section ConstructionDate.

Context {W : Type} {lib : Library W}.
Implicit Types (s : state W) (evs : list event).

Lemma agent_cell_inv g se c e v s s' evs a :
  agent_cell g se c e v s = (s', evs, Ok a) ->
  a = create_react_agent g [se; c; e; v]
        (from_messages
           [RoleEntry "system" (system_prompt (strftime (lib_today (world s))));
            MessagesPlaceholder "messages"])
        "hybrid_agent" /\
  clock_reads evs = 1%nat.
Proof. unfold agent_cell. intros H. run_inv. split; reflexivity. Qed.

(** C9: the agent cell reads the clock once and puts the date, formatted
    by [strftime("%A, %B %d, %Y")], into the system prompt.  Two
    constructions from the same model and tools on the same calendar date
    return the same agent, whatever the time of day; on different dates
    their prompts differ.  In a notebook run whose construction completes
    the clock is read once. *)
Theorem prompt_fixed_by_construction_date g se c e v s1 s2 a1 a2 :
  valid_date (lib_today (world s1)) = true ->
  valid_date (lib_today (world s2)) = true ->
  outcome (agent_cell g se c e v) s1 = Ok a1 ->
  outcome (agent_cell g se c e v) s2 = Ok a2 ->
  agent_prompt a1 =
    from_messages
      [RoleEntry "system"
         (prompt_head +:+ strftime (lib_today (world s1)) +:+ prompt_tail);
       MessagesPlaceholder "messages"] /\
  clock_reads (trace (agent_cell g se c e v) s1) = 1%nat /\
  (forall s a, outcome construction s = Ok a ->
               clock_reads (trace notebook s) = 1%nat) /\
  (same_date (lib_today (world s1)) (lib_today (world s2)) -> a1 = a2) /\
  (~ same_date (lib_today (world s1)) (lib_today (world s2)) ->
   agent_prompt a1 <> agent_prompt a2).
Proof.
  intros V1 V2 H1 H2.
  apply outcome_run in H1, H2.
  destruct H1 as (s1' & ev1 & H1), H2 as (s2' & ev2 & H2).
  unfold trace. rewrite H1. cbn [fst snd].
  apply agent_cell_inv in H1, H2. destruct H1 as [-> Hc1], H2 as [-> _].
  split; [reflexivity|]. split; [exact Hc1|]. split; [|split].
  - intros s a Hok. destruct (outcome_run _ _ _ Hok) as (s' & evs & Hrun).
    destruct (construction_inv _ _ _ _ Hrun) as (_ & _ & _ & _ & _ & _ & Hc).
    destruct (notebook_after_construction _ _ _ _ Hrun) as (evs' & Ht & Hq).
    apply quiet_projections in Hq. destruct Hq as (_ & _ & _ & Hq).
    unfold trace in Ht |- *. rewrite Ht, clock_reads_app, Hc, Hq. reflexivity.
  - intros Hsame. rewrite (strftime_same_date _ _ Hsame). reflexivity.
  - intros Hdiff Heq. apply Hdiff. cbn [agent_prompt] in Heq.
    remember (system_prompt (strftime (lib_today (world s1)))) as p1 eqn:E1.
    remember (system_prompt (strftime (lib_today (world s2)))) as p2 eqn:E2.
    injection Heq as Heq. subst p1 p2. apply system_prompt_inj in Heq.
    apply strftime_inj; assumption.
Qed.

End ConstructionDate.

Lemma prompt_fixed_by_construction_date_witness :
  let g := ChatOpenAI "gpt-4.1" (Some "sk-from-env") in
  let tools := agent_tools (Demo.demo_agent Demo.monday None) in
  let s1 := Demo.start Demo.env_set_up (Demo.world_at Demo.monday false) in
  let s2 := Demo.start Demo.env_set_up (Demo.world_at Demo.monday_evening false) in
  Demo.demo_agent Demo.monday (Some "sk-from-env") =
  Demo.demo_agent Demo.monday_evening (Some "sk-from-env").
Proof.
  intros g tools s1 s2.
  refine (proj1 (proj2 (proj2 (proj2
    (prompt_fixed_by_construction_date (lib:=Demo.demo_lib) g
       (TavilySearch 10 "general") TavilyCrawl (TavilyExtract "advanced")
       (as_tool (as_retriever crm_store) "vector_search" vector_search_description)
       s1 s2 _ _ _ _ _ _)))) _).
  - vm_compute. reflexivity.
  - vm_compute. reflexivity.
  - vm_compute. reflexivity.
  - vm_compute. reflexivity.
  - vm_compute. repeat split; reflexivity.
Defined.

Example prompts_differ_from_one_day_to_the_next :
  agent_prompt (Demo.demo_agent Demo.monday None) <>
  agent_prompt (Demo.demo_agent Demo.tuesday None).
Proof.
  unfold Demo.demo_agent. cbn [agent_prompt].
  remember (system_prompt (strftime Demo.monday)) as p1 eqn:E1.
  remember (system_prompt (strftime Demo.tuesday)) as p2 eqn:E2.
  intros H. injection H as H. subst p1 p2. apply system_prompt_inj in H.
  vm_compute in H. discriminate H.
Qed.

(** ** The two unused handles *)

Section UnusedHandles.

Context {W : Type} {lib : Library W}.
Implicit Types (s : state W) (evs : list event).

(** Constructing the Tavily client and the o3-mini model handle leaves
    the world as it is: these constructors only keep their arguments. *)
Hypothesis client_pure :
  forall k w, lib_next (construct (OClient (TavilyClient k))) w = w.
Hypothesis o3_mini_pure :
  forall k w,
    lib_next (construct (OModel (ChatOpenAI "o3-mini-2025-01-31" k))) w = w.

Lemma calls_app evs1 evs2 : calls (evs1 ++ evs2) = calls evs1 ++ calls evs2.
Proof. apply omap_app. Qed.

Lemma kept_prints (search_results : list document) :
  List.filter kept (calls (results_printed search_results)) =
  calls (results_printed search_results).
Proof.
  unfold results_printed. induction search_results as [|result rest IH];
    cbn; [reflexivity|].
  do 2 f_equal. exact IH.
Qed.

Lemma credential_setup_kept s :
  List.filter kept (calls (trace credential_setup s)) =
  calls (trace credential_setup s).
Proof.
  apply forallb_filter_id. apply forallb_forall. intros c Hc.
  assert (H : Forall (fun e => forall c r, e = Called c r -> kept c = true)
                (trace credential_setup s)).
  { apply (built_events _ credential_setup).
    apply built_credential_setup; intros; try discriminate.
    match goal with H : Called _ _ = Called _ _ |- _ => injection H as <- _ end.
    reflexivity. }
  unfold calls in Hc. apply list_elem_of_In, list_elem_of_omap in Hc.
  destruct Hc as (e & He & Hce). rewrite Forall_forall in H.
  destruct e; try discriminate. injection Hce as ->.
  eapply H; [exact He|reflexivity].
Qed.

Lemma setup_without_client s s1 ev1 tc :
  setup_cell s = (s1, ev1, Ok tc) ->
  exists ev1',
    setup_cell_without_client s = (s1, ev1', Ok tt) /\
    calls ev1' = List.filter kept (calls ev1).
Proof.
  unfold setup_cell. intros H.
  apply bind_inv_Ok in H. destruct H as (sa & eva & [] & ? & Hdot & H & ->).
  apply bind_inv_Ok in H. destruct H as (sb & evb & [] & ? & Hcred & H & ->).
  run_inv. rewrite client_pure.
  assert (Hrun : setup_cell_without_client s =
                 (sb, Called load_dotenv_call None :: evb, Ok tt)).
  { unfold setup_cell_without_client, load_dotenv, bind, perform, update_environ.
    rewrite H1. cbn [environ world]. rewrite Hcred. reflexivity. }
  eexists. split.
  - rewrite Hrun. destruct sb. reflexivity.
  - pose proof (credential_setup_kept
                 {| environ := lib_dotenv (world s) (environ s);
                    world := lib_next load_dotenv_call (world s) |}) as Hk.
    unfold trace in Hk. rewrite Hcred in Hk. cbn [fst snd] in Hk.
    rewrite !calls_app, !List.filter_app, Hk. cbn. rewrite app_nil_r. reflexivity.
Qed.

Lemma models_without_o3_mini s s1 evs ms :
  models_cell s = (s1, evs, Ok ms) ->
  exists evs',
    models_cell_without_o3_mini s = (s1, evs', Ok ms.2) /\
    calls evs' = List.filter kept (calls evs).
Proof.
  unfold models_cell. intros H. run_inv.
  rewrite o3_mini_pure in *.
  eexists. split.
  - unfold models_cell_without_o3_mini, bind, environ_get, build, perform.
    cbn [environ world].
    match goal with
    | H : lib_raise (construct (OModel (ChatOpenAI "gpt-4.1" _))) _ = None |- _ =>
        rewrite H
    end.
    reflexivity.
  - reflexivity.
Qed.

(** C10: [tavily_client] and [o3_mini] are constructed and never used.
    The agent is bound to the "gpt-4.1" handle, in its construction and in
    every later call ([notebook_event]); and when the construction
    completes, the construction without the two statements completes too,
    with the same agent (same model, tools and prompt), in the same final
    state, after the same library calls less the two removed ones. *)
Theorem unused_handles_can_be_removed s a :
  outcome construction s = Ok a ->
  model (agent_model a) = "gpt-4.1" /\
  outcome construction_without_unused s = Ok a /\
  final construction_without_unused s = final construction s /\
  calls (trace construction_without_unused s) =
    List.filter kept (calls (trace construction s)) /\
  Forall notebook_event (trace notebook s).
Proof.
  intros Hok. destruct (outcome_run _ _ _ Hok) as (s' & evs & Hrun).
  split.
  { destruct (construction_inv _ _ _ _ Hrun) as (k & d & -> & _). reflexivity. }
  assert (Hreduced : exists evs',
            construction_without_unused s = (s', evs', Ok a) /\
            calls evs' = List.filter kept (calls evs)).
  { unfold construction in Hrun.
    apply bind_inv_Ok in Hrun.
    destruct Hrun as (sA & evA & tc & ? & Hsetup & Hrun & ->).
    apply bind_inv_Ok in Hrun.
    destruct Hrun as (sB & evB & v & ? & Hv & Hrun & ->).
    apply bind_inv_Ok in Hrun.
    destruct Hrun as (sC & evC & [r results] & ? & Hr & Hrun & ->).
    apply bind_inv_Ok in Hrun.
    destruct Hrun as (sD & evD & [] & ? & Hp & Hrun & ->).
    apply bind_inv_Ok in Hrun.
    destruct Hrun as (sE & evE & [[[vt se] ex] cr] & ? & Ht & Hrun & ->).
    apply bind_inv_Ok in Hrun.
    destruct Hrun as (sF & evF & [o3 g] & evG & Hm & Ha & ->).
    destruct (setup_without_client _ _ _ _ Hsetup) as (evA' & HsetupR & HcA).
    destruct (models_without_o3_mini _ _ _ _ Hm) as (evF' & HmR & HcF).
    exists (evA' ++ evB ++ evC ++ evD ++ evE ++ evF' ++ evG). split.
    - unfold construction_without_unused.
      eapply bind_run_Ok; [exact HsetupR|cbv beta].
      eapply bind_run_Ok; [exact Hv|cbv beta].
      eapply bind_run_Ok; [exact Hr|cbv beta iota].
      eapply bind_run_Ok; [exact Hp|cbv beta].
      eapply bind_run_Ok; [exact Ht|cbv beta iota].
      eapply bind_run_Ok; [exact HmR|exact Ha].
    - rewrite !calls_app, !List.filter_app, HcA, HcF.
      unfold vector_store_cell in Hv. unfold retriever_cell in Hr.
      unfold tools_cell in Ht. unfold agent_cell in Ha.
      run_inv. rewrite kept_prints. reflexivity. }
  destruct Hreduced as (evs' & HrunR & Hcalls).
  unfold outcome, final, trace. rewrite Hrun, HrunR. cbn [fst snd].
  repeat split; [exact Hcalls|].
  apply (built_events _ _ built_notebook).
Qed.

End UnusedHandles.

Lemma unused_handles_can_be_removed_witness :
  let s := Demo.start Demo.env_set_up (Demo.world_at Demo.monday false) in
  outcome (construction_without_unused (lib:=Demo.demo_lib)) s =
    Ok (Demo.demo_agent Demo.monday (Some "sk-from-env")).
Proof.
  intros s.
  refine (proj1 (proj2
    (unused_handles_can_be_removed (lib:=Demo.demo_lib) _ _ s
       (Demo.demo_agent Demo.monday (Some "sk-from-env")) _))).
  - intros k w. reflexivity.
  - intros k w. reflexivity.
  - vm_compute. reflexivity.
Defined.

(** * Further properties of the cells *)

(** ** Printing the results of the vector search *)

Section PrintResults.

Context {W : Type} {lib : Library W}.
Implicit Types (s : state W) (evs : list event).

(** One turn of the loop over the results. *)
Lemma print_results_cell_cons result rest s :
  print_results_cell (result :: rest) s =
  let text := print_text (page_content result) in
  let w1 := lib_next (console text) (world s) in
  let w2 := lib_next (console (print_text LF)) w1 in
  match lib_raise (console text) (world s) with
  | Some e =>
      ({| environ := environ s; world := w1 |},
       [Called (console text) (Some e)], Raise e)
  | None =>
      match lib_raise (console (print_text LF)) w1 with
      | Some e =>
          ({| environ := environ s; world := w2 |},
           [printed text; Called (console (print_text LF)) (Some e)], Raise e)
      | None =>
          match print_results_cell rest {| environ := environ s; world := w2 |} with
          | (s', evs, r) => (s', printed text :: printed (print_text LF) :: evs, r)
          end
      end
  end.
Proof.
  unfold print_results_cell. cbn [for_each]. unfold bind, emit, perform.
  destruct (lib_raise _ (world s)); [reflexivity|]. cbn [environ world].
  destruct (lib_raise _ _); [reflexivity|].
  destruct (for_each rest _ _) as [[s' evs] r]. reflexivity.
Qed.

(** X1. The cell that prints the results writes, for each document in the
    order the retriever returned them, its [page_content] and then a line
    feed, and nothing else.  A run that a failing [print] cuts short has
    written a prefix of these lines; a run that completes has written all
    of them, two per document, and given no document it completes without
    a call.  [os.environ] is as before. *)
Theorem results_printed_in_order search_results s :
  let evs := trace (print_results_cell search_results) s in
  (exists n, outputs evs = take n (result_lines search_results)) /\
  (completes (print_results_cell search_results) s ->
     outputs evs = result_lines search_results /\
     length (outputs evs) = (2 * length search_results)%nat) /\
  (search_results = [] -> print_results_cell search_results s = (s, [], Ok tt)) /\
  environ (final (print_results_cell search_results) s) = environ s.
Proof.
  cbv zeta. revert s.
  induction search_results as [|result rest IH]; intros s.
  - split; [exists 0%nat; reflexivity|]. split; [intros _; split; reflexivity|].
    split; reflexivity.
  - unfold trace, completes, outcome, final.
    rewrite print_results_cell_cons. cbv zeta.
    destruct (lib_raise _ (world s)).
    { cbn. split; [exists 0%nat; reflexivity|]. split; [intros [? [=]]|].
      split; [discriminate|reflexivity]. }
    destruct (lib_raise _ _).
    { cbn. split; [exists 1%nat; reflexivity|]. split; [intros [? [=]]|].
      split; [discriminate|reflexivity]. }
    match goal with |- context [print_results_cell rest ?s2] =>
      specialize (IH s2); unfold trace, completes, outcome, final in IH;
      destruct (print_results_cell rest s2) as [[s' evs] r]
    end.
    cbn in *. destruct IH as ((n & Hn) & Hall & _ & Henv).
    split; [exists (S (S n)); cbn; rewrite Hn; reflexivity|].
    split; [|split; [discriminate|exact Henv]].
    intros Hc. destruct (Hall Hc) as [-> ->]. split; [reflexivity|lia].
Qed.

End PrintResults.

(** ** The variable [message] and the display of the final answer *)

Section FinalMessage.

Context {W : Type} {lib : Library W}.
Implicit Types (s : state W) (evs : list event).

Lemma message_after_cons snap rest m message :
  last (messages snap) = Some m ->
  message_after rest (Some m) = message_after (snap :: rest) message.
Proof.
  intros Hm. unfold message_after. destruct rest as [|snap' rest].
  - cbn. symmetry. exact Hm.
  - rewrite last_cons_cons. destruct (last (snap' :: rest)) eqn:Hl; [reflexivity|].
    apply last_None in Hl. discriminate Hl.
Qed.

(** A loop that completes leaves in [message] what [message_after] says. *)
Lemma stream_loop_result a items message s s' evs m' :
  stream_loop a items message s = (s', evs, Ok m') ->
  m' = message_after items message.
Proof.
  revert message s s' evs. induction items as [|snap rest IH];
    intros message s s' evs H.
  - cbn [stream_loop] in H. run_inv. reflexivity.
  - rewrite stream_loop_cons in H. cbv zeta in H.
    destruct (lib_raise (stream_next a) _); [discriminate|].
    destruct (last (messages snap)) as [m|] eqn:Hm; [|discriminate].
    destruct (lib_raise (console _) _); [discriminate|].
    destruct (stream_loop a rest (Some m) _) as [[s3 ev3] r] eqn:Hrest.
    injection H as <- <- ->. apply IH in Hrest. rewrite Hrest.
    apply message_after_cons, Hm.
Qed.

(** A loop that completes met no snapshot without a message. *)
Lemma stream_loop_nonempty a items message s s' evs m' :
  stream_loop a items message s = (s', evs, Ok m') ->
  Forall (fun snap => messages snap <> []) items.
Proof.
  revert message s s' evs. induction items as [|snap rest IH];
    intros message s s' evs H; [constructor|].
  rewrite stream_loop_cons in H. cbv zeta in H.
  destruct (lib_raise (stream_next a) _); [discriminate|].
  destruct (last (messages snap)) as [m|] eqn:Hm; [|discriminate].
  destruct (lib_raise (console _) _); [discriminate|].
  destruct (stream_loop a rest (Some m) _) as [[s3 ev3] r] eqn:Hrest.
  injection H as <- <- ->. constructor; [|eapply IH, Hrest].
  intros Hnil. rewrite Hnil in Hm. discriminate Hm.
Qed.

Lemma invoke_cell_loop a question message s m' :
  outcome (invoke_cell a question message) s = Ok m' ->
  exists s1 s' evs,
    stream_loop a (lib_stream a [HumanMessage question] "values" (world s))
                message s1 = (s', evs, Ok m').
Proof.
  intros H. apply outcome_run in H. destruct H as (s' & evs & H).
  unfold invoke_cell in H. apply bind_inv_Ok in H.
  destruct H as (s1 & ev1 & items & ev2 & Hs & Hl & ->).
  apply perform_inv_Ok in Hs. destruct Hs as (_ & _ & _ & ->). eauto.
Qed.

(** X2. After an invocation cell that completes, the variable [message] holds
    the last message of the last snapshot of the stream.  When the stream
    yields no snapshot the loop body never runs and [message] keeps what
    it held before the cell: the answer of the previous invocation, or
    nothing at all.  No snapshot of a completed stream is without
    messages. *)
Theorem message_after_invocation a question message s m' :
  outcome (invoke_cell a question message) s = Ok m' ->
  let items := lib_stream a [HumanMessage question] "values" (world s) in
  (items = [] -> m' = message) /\
  (forall snap, last items = Some snap ->
     exists m, last (messages snap) = Some m /\ m' = Some m) /\
  Forall (fun snap => messages snap <> []) items.
Proof.
  intros H. cbv zeta. destruct (invoke_cell_loop _ _ _ _ _ H) as (s1 & s' & evs & Hl).
  pose proof (stream_loop_result _ _ _ _ _ _ _ Hl) as Hm.
  pose proof (stream_loop_nonempty _ _ _ _ _ _ _ Hl) as Hne.
  split; [|split; [|exact Hne]].
  - intros Hnil. rewrite Hnil in Hm. exact Hm.
  - intros snap Hlast. unfold message_after in Hm. rewrite Hlast in Hm.
    apply last_Some in Hlast. destruct Hlast as (pre & Hpre).
    rewrite Hpre in Hne. apply Forall_app in Hne. destruct Hne as [_ Hne].
    inversion Hne as [|? ? Hsnap _]; subst.
    destruct (last (messages snap)) as [m|] eqn:Hmsg.
    + exists m. auto.
    + apply last_None in Hmsg. contradiction.
Qed.

(** X3. The display cell after an invocation cell.  It calls [Markdown]
    once, on the [content] of the message the loop left in [message],
    passed as it is; the call gets the library's answer, and the exception
    it raises, if any, ends the cell.  What the front end then shows is
    not the notebook's doing: [Markdown] loads the text from the URL or
    the file its argument names, when it names one.  When the message is a
    tuple, which the loop printed with [print], the cell raises
    [AttributeError]; when the stream was empty and no earlier cell had
    set [message], it raises [NameError]; in both cases without calling
    anything.  When the stream was empty and an earlier invocation had set
    [message], [Markdown] is called on that earlier answer again. *)
Theorem display_after_invocation a question message s m' :
  outcome (invoke_cell a question message) s = Ok m' ->
  let both := invoke_and_display a question message in
  let before := trace (invoke_cell a question message) s in
  m' = message_after (lib_stream a [HumanMessage question] "values" (world s))
                     message /\
  match m' with
  | None =>
      outcome both s = Raise "NameError" /\ trace both s = before
  | Some (TupleMessage _ _) =>
      outcome both s = Raise "AttributeError" /\ trace both s = before
  | Some (ObjectMessage _ content) =>
      let r := lib_raise (console (Markdown content))
                 (world (final (invoke_cell a question message) s)) in
      trace both s = before ++ [Called (console (Markdown content)) r] /\
      outcome both s = match r with Some e => Raise e | None => Ok tt end
  end.
Proof.
  intros H. cbv zeta. split.
  { destruct (invoke_cell_loop _ _ _ _ _ H) as (s1 & s0 & evs0 & Hl).
    exact (stream_loop_result _ _ _ _ _ _ _ Hl). }
  apply outcome_run in H. destruct H as (s' & evs & H).
  unfold invoke_and_display, outcome, trace, final, bind. rewrite H.
  cbn [fst snd].
  destruct m' as [[role content|type content]|]; cbn.
  - rewrite app_nil_r. auto.
  - unfold emit, perform. destruct (lib_raise _ (world s')) as [e|]; auto.
  - rewrite app_nil_r. auto.
Qed.

End FinalMessage.

Lemma message_after_invocation_witness :
  let a := Demo.demo_agent Demo.monday (Some "sk-from-env") in
  let s := Demo.start Demo.env_set_up (Demo.world_at Demo.monday false) in
  Forall (fun snap => messages snap <> [])
         (Demo.demo_stream a [HumanMessage first_question] "values" (world s)).
Proof.
  intros a s.
  refine (proj2 (proj2
    (message_after_invocation (lib:=Demo.demo_lib) a first_question None s
       (Some (ObjectMessage "ai" "Final answer")) _))).
  vm_compute. reflexivity.
Defined.

Lemma display_after_invocation_witness :
  let a := Demo.demo_agent Demo.monday (Some "sk-from-env") in
  let s := Demo.start Demo.env_set_up (Demo.world_at Demo.monday false) in
  trace (invoke_and_display (lib:=Demo.demo_lib) a first_question None) s =
    trace (invoke_cell (lib:=Demo.demo_lib) a first_question None) s ++
    [Called (console (Markdown "Final answer")) None] /\
  outcome (invoke_and_display (lib:=Demo.demo_lib) a first_question None) s =
    Ok tt.
Proof.
  intros a s.
  assert (Hrun : outcome (invoke_cell (lib:=Demo.demo_lib) a first_question None) s =
                 Ok (Some (ObjectMessage "ai" "Final answer")))
    by (vm_compute; reflexivity).
  exact (proj2 (display_after_invocation (lib:=Demo.demo_lib) a first_question
                  None s (Some (ObjectMessage "ai" "Final answer")) Hrun)).
Defined.

(** ** The keys: what the setup leaves for the clients *)

Section Keys.

Context {W : Type} {lib : Library W}.
Implicit Types (s : state W) (evs : list event).

Lemma truthy_is_Some (v : option string) : truthy v = true -> is_Some v.
Proof. destruct v; [eauto|discriminate]. Qed.

Lemma not_truthy_empty (v : option string) :
  is_Some v -> (truthy v = false <-> v = Some "").
Proof.
  intros [x ->]. destruct x; cbn; split; congruence.
Qed.

Lemma prompt_if_unset_after key prompt s s' evs x :
  prompt_if_unset key prompt s = (s', evs, Ok x) ->
  is_Some (environ s' !! key) /\
  (forall k, k <> key -> environ s' !! k = environ s !! k) /\
  (In prompt (prompts evs) <-> truthy (environ s !! key) = false).
Proof.
  rewrite prompt_if_unset_run. destruct (truthy (environ s !! key)) eqn:Ht.
  - intros [= <- <- _]. split; [apply truthy_is_Some, Ht|]. split; [auto|].
    cbn. split; [tauto|discriminate].
  - destruct (lib_raise _ _); [discriminate|].
    destruct (environ_set_error _ _); intros [= <- <- _]. cbn [environ].
    split; [rewrite lookup_insert_eq; eauto|]. split.
    + intros k Hk. apply lookup_insert_ne. auto.
    + cbn. tauto.
Qed.

Lemma prompts_app evs1 evs2 : prompts (evs1 ++ evs2) = prompts evs1 ++ prompts evs2.
Proof. apply omap_app. Qed.

Lemma prompt_if_unset_prompts key prompt s p :
  In p (prompts (trace (prompt_if_unset key prompt) s)) -> p = prompt.
Proof.
  unfold trace. rewrite prompt_if_unset_run.
  destruct (truthy _); [intros []|].
  destruct (lib_raise _ _); [|destruct (environ_set_error _ _)];
    cbn; intros [<-|[]]; reflexivity.
Qed.

(** A completed run of the two credential statements. *)
Lemma credential_setup_after s s' evs x :
  credential_setup s = (s', evs, Ok x) ->
  is_Some (environ s' !! "TAVILY_API_KEY") /\
  is_Some (environ s' !! "OPENAI_API_KEY") /\
  (In ("TAVILY_API_KEY:" +:+ LF) (prompts evs) <->
   truthy (environ s !! "TAVILY_API_KEY") = false) /\
  (In "Enter API key for OpenAI: " (prompts evs) <->
   truthy (environ s !! "OPENAI_API_KEY") = false).
Proof.
  intros H. unfold credential_setup in H. apply bind_inv_Ok in H.
  destruct H as (s1 & ev1 & [] & ev2 & H1 & H2 & ->).
  pose proof (prompt_if_unset_prompts
                "TAVILY_API_KEY" ("TAVILY_API_KEY:" +:+ LF) s) as P1.
  pose proof (prompt_if_unset_prompts
                "OPENAI_API_KEY" "Enter API key for OpenAI: " s1) as P2.
  unfold trace in P1, P2. rewrite H1 in P1. rewrite H2 in P2. cbn [fst snd] in *.
  apply prompt_if_unset_after in H1, H2.
  destruct H1 as (S1 & F1 & I1), H2 as (S2 & F2 & I2).
  split; [rewrite F2 by discriminate; exact S1|]. split; [exact S2|].
  rewrite prompts_app, !in_app_iff, <- I1. rewrite F1 in I2 by discriminate.
  rewrite <- I2. split; split; auto.
  - intros [Hin|Hin]; [exact Hin|]. apply P2 in Hin. discriminate Hin.
  - intros [Hin|Hin]; [|exact Hin]. apply P1 in Hin. discriminate Hin.
Qed.

(** X4. Running the credential statements a second time, as when the setup
    cell is run again.  After a first completed run both variables are in
    [os.environ]; the second run prompts for a variable exactly when
    its value is the empty string; when neither is empty it reads the two
    variables and does nothing else. *)
Theorem rerun_prompts_for_empty_values s :
  outcome credential_setup s = Ok tt ->
  outcome credential_setup (final credential_setup s) = Ok tt ->
  let s' := final credential_setup s in
  let again := trace credential_setup s' in
  is_Some (environ s' !! "TAVILY_API_KEY") /\
  is_Some (environ s' !! "OPENAI_API_KEY") /\
  (In ("TAVILY_API_KEY:" +:+ LF) (prompts again) <->
   environ s' !! "TAVILY_API_KEY" = Some "") /\
  (In "Enter API key for OpenAI: " (prompts again) <->
   environ s' !! "OPENAI_API_KEY" = Some "") /\
  (environ s' !! "TAVILY_API_KEY" <> Some "" ->
   environ s' !! "OPENAI_API_KEY" <> Some "" ->
   credential_setup s' =
     (s', [EnvRead "TAVILY_API_KEY"; EnvRead "OPENAI_API_KEY"], Ok tt)).
Proof.
  intros H1 H2. cbv zeta.
  apply outcome_run in H1. destruct H1 as (s' & ev1 & H1).
  assert (Hf : final credential_setup s = s') by (unfold final; rewrite H1; reflexivity).
  rewrite Hf in *. clear Hf.
  apply outcome_run in H2. destruct H2 as (s'' & ev2 & H2).
  unfold trace. rewrite H2. cbn [fst snd].
  apply credential_setup_after in H1. destruct H1 as (ST & SO & _ & _).
  pose proof (credential_setup_after _ _ _ _ H2) as (_ & _ & IT & IO).
  rewrite (not_truthy_empty _ ST) in IT. rewrite (not_truthy_empty _ SO) in IO.
  split; [exact ST|]. split; [exact SO|]. split; [exact IT|]. split; [exact IO|].
  intros HT HO. rewrite <- H2. rewrite credential_setup_run, !prompt_if_unset_run.
  destruct (truthy (environ s' !! "TAVILY_API_KEY")) eqn:ET.
  2:{ apply (not_truthy_empty _ ST) in ET. contradiction. }
  rewrite prompt_if_unset_run.
  destruct (truthy (environ s' !! "OPENAI_API_KEY")) eqn:EO.
  2:{ apply (not_truthy_empty _ SO) in EO. contradiction. }
  reflexivity.
Qed.

(** X5. A run of the two credential statements that ends in an exception
    ends at the prompt of one of them: either [getpass] raised it, or
    [getpass] returned a text that [os.environ] refuses (one with a NUL
    byte, or with a character that cannot be encoded) and the assignment
    raised it, storing nothing.  Nothing is rolled back and nothing else is
    touched: [OPENAI_API_KEY] is as it was; when the run ended at the
    second prompt, a key typed at the first has been stored and stays
    stored; when it ended at the first, [os.environ] is unchanged and
    [OPENAI_API_KEY] was not even read. *)
Theorem failed_prompt_keeps_what_was_stored s e :
  outcome credential_setup s = Raise e ->
  let s' := final credential_setup s in
  let evs := trace credential_setup s in
  (exists pre key p,
     let w := replay (calls pre) (world s) in
     evs = pre ++ [Called (getpass_call p) (lib_raise (getpass_call p) w)] /\
     ((key = "TAVILY_API_KEY" /\ p = "TAVILY_API_KEY:" +:+ LF) \/
      (key = "OPENAI_API_KEY" /\ p = "Enter API key for OpenAI: ")) /\
     match lib_raise (getpass_call p) w with
     | Some raised => raised = e
     | None =>
         environ_set_error key (lib_getpass p w) = Some e /\
         ~ In (key, lib_getpass p w) (env_writes evs)
     end) /\
  environ s' !! "OPENAI_API_KEY" = environ s !! "OPENAI_API_KEY" /\
  (In (EnvRead "OPENAI_API_KEY") evs ->
   if truthy (environ s !! "TAVILY_API_KEY")
   then env_writes evs = [] /\ environ s' = environ s
   else
     env_writes evs =
       [("TAVILY_API_KEY", lib_getpass ("TAVILY_API_KEY:" +:+ LF) (world s))] /\
     environ s' =
       <["TAVILY_API_KEY" := lib_getpass ("TAVILY_API_KEY:" +:+ LF) (world s)]>
         (environ s)) /\
  (~ In (EnvRead "OPENAI_API_KEY") evs ->
   env_writes evs = [] /\ environ s' = environ s).
Proof.
  cbv zeta. unfold outcome, final, trace.
  rewrite credential_setup_run, !prompt_if_unset_run.
  destruct (truthy (environ s !! "TAVILY_API_KEY")) eqn:HT.
  - rewrite prompt_if_unset_run. cbn [environ world].
    destruct (truthy (environ s !! "OPENAI_API_KEY")); [discriminate|].
    destruct (lib_raise _ _) as [e'|] eqn:Hraise.
    + cbn -[lookup insert]. intros [= ->].
      split.
      { exists [EnvRead "TAVILY_API_KEY"; EnvRead "OPENAI_API_KEY"],
               "OPENAI_API_KEY", "Enter API key for OpenAI: ".
        cbn. rewrite Hraise. auto. }
      split; [reflexivity|]. split; [auto|].
      intros Hn. exfalso. apply Hn. auto.
    + destruct (environ_set_error _ _) as [e'|] eqn:Hset; [|discriminate].
      cbn -[lookup insert]. intros [= ->].
      split.
      { exists [EnvRead "TAVILY_API_KEY"; EnvRead "OPENAI_API_KEY"],
               "OPENAI_API_KEY", "Enter API key for OpenAI: ".
        cbn. rewrite Hraise. auto. }
      split; [reflexivity|]. split; [auto|].
      intros Hn. exfalso. apply Hn. auto.
  - destruct (lib_raise _ (world s)) as [e'|] eqn:Hraise.
    + cbn -[lookup insert]. intros [= ->].
      split.
      { exists [EnvRead "TAVILY_API_KEY"],
               "TAVILY_API_KEY", ("TAVILY_API_KEY:" +:+ LF).
        cbn. rewrite Hraise. auto. }
      split; [reflexivity|]. split; [|auto].
      intros [Hin|[Hin|[]]]; discriminate Hin.
    + destruct (environ_set_error _ _) as [e'|] eqn:Hset.
      * cbn -[lookup insert]. intros [= ->].
        split.
        { exists [EnvRead "TAVILY_API_KEY"],
                 "TAVILY_API_KEY", ("TAVILY_API_KEY:" +:+ LF).
          cbn. rewrite Hraise. auto. }
        split; [reflexivity|]. split; [|auto].
        intros [Hin|[Hin|[]]]; discriminate Hin.
      * rewrite prompt_if_unset_run. cbn [environ world].
        rewrite lookup_insert_ne by discriminate.
        destruct (truthy (environ s !! "OPENAI_API_KEY")); [discriminate|].
        destruct (lib_raise (getpass_call "Enter API key for OpenAI: ") _)
          as [e'|] eqn:Hraise2.
        -- cbn -[lookup insert]. intros [= ->].
           split.
           { exists [EnvRead "TAVILY_API_KEY";
                     Called (getpass_call ("TAVILY_API_KEY:" +:+ LF)) None;
                     EnvWrite "TAVILY_API_KEY"
                       (lib_getpass ("TAVILY_API_KEY:" +:+ LF) (world s));
                     EnvRead "OPENAI_API_KEY"],
                    "OPENAI_API_KEY", "Enter API key for OpenAI: ".
             cbn. rewrite Hraise2. auto. }
           split; [apply lookup_insert_ne; discriminate|]. split; [auto|].
           intros Hn. exfalso. apply Hn. auto 10.
        -- destruct (environ_set_error "OPENAI_API_KEY" _) as [e'|] eqn:Hset2;
             [|discriminate].
           cbn -[lookup insert]. intros [= ->].
           split.
           { exists [EnvRead "TAVILY_API_KEY";
                     Called (getpass_call ("TAVILY_API_KEY:" +:+ LF)) None;
                     EnvWrite "TAVILY_API_KEY"
                       (lib_getpass ("TAVILY_API_KEY:" +:+ LF) (world s));
                     EnvRead "OPENAI_API_KEY"],
                    "OPENAI_API_KEY", "Enter API key for OpenAI: ".
             cbn. rewrite Hraise2. split; [reflexivity|]. split; [auto|].
             split; [exact Hset2|]. intros [H|[]]. discriminate H. }
           split; [apply lookup_insert_ne; discriminate|]. split; [auto|].
           intros Hn. exfalso. apply Hn. auto 10.
Qed.

End Keys.

Lemma rerun_prompts_for_empty_values_witness :
  let s := Demo.start Demo.env_missing_key (Demo.world_at Demo.monday false) in
  let s' := final (credential_setup (lib:=Demo.demo_lib)) s in
  credential_setup (lib:=Demo.demo_lib) s' =
    (s', [EnvRead "TAVILY_API_KEY"; EnvRead "OPENAI_API_KEY"], Ok tt).
Proof.
  intros s s'.
  refine (proj2 (proj2 (proj2 (proj2
    (rerun_prompts_for_empty_values (lib:=Demo.demo_lib) s _ _)))) _ _).
  - vm_compute. reflexivity.
  - vm_compute. reflexivity.
  - vm_compute. discriminate.
  - vm_compute. discriminate.
Defined.

Lemma failed_prompt_keeps_what_was_stored_witness :
  let s := Demo.start ∅ (Demo.world_at Demo.monday false) in
  environ (final (credential_setup (lib:=NoTerminal.lib)) s) =
    <["TAVILY_API_KEY" := "tvly-typed"]> ∅.
Proof.
  intros s.
  assert (Hraise : outcome (credential_setup (lib:=NoTerminal.lib)) s =
                   Raise "EOFError") by (vm_compute; reflexivity).
  destruct (failed_prompt_keeps_what_was_stored (lib:=NoTerminal.lib) s
              "EOFError" Hraise) as (_ & _ & Hsecond & _).
  refine (proj2 (Hsecond _)).
  vm_compute. auto.
Defined.

(** A key pasted with a NUL byte at the first prompt: the assignment raises
    [ValueError], [os.environ] is left as it was, and the second statement
    is not reached. *)
Example pasted_key_with_nul_is_refused :
  let s := Demo.start ∅ (Demo.world_at Demo.monday false) in
  credential_setup (lib:=PastedKey.lib) s =
    ({| environ := ∅;
        world := Demo.tick (Demo.world_at Demo.monday false) |},
     [EnvRead "TAVILY_API_KEY";
      Called (getpass_call ("TAVILY_API_KEY:" +:+ LF)) None],
     Raise "ValueError").
Proof. vm_compute. reflexivity. Qed.

(** ** The cells together *)

Section Together.

Context {W : Type} {lib : Library W}.
Implicit Types (s : state W) (evs : list event).

Lemma clients_built_app evs1 evs2 :
  clients_built (evs1 ++ evs2) = clients_built evs1 ++ clients_built evs2.
Proof. apply omap_app. Qed.

Lemma models_built_app evs1 evs2 :
  models_built (evs1 ++ evs2) = models_built evs1 ++ models_built evs2.
Proof. apply omap_app. Qed.

Lemma stream_calls_app evs1 evs2 :
  stream_calls (evs1 ++ evs2) = stream_calls evs1 ++ stream_calls evs2.
Proof. apply omap_app. Qed.

(** Events that construct no client and no model and call no stream. *)
Lemma silent_projections evs :
  Forall (fun e => client_built e = None /\ model_built e = None /\
                   stream_call e = None) evs ->
  clients_built evs = [] /\ models_built evs = [] /\ stream_calls evs = [].
Proof.
  unfold clients_built, models_built, stream_calls.
  induction 1 as [|e evs (Hc & Hm & Hs) _ (IHc & IHm & IHs)]; cbn; [auto|].
  rewrite Hc, Hm, Hs. auto.
Qed.

Lemma silent_credential_setup s :
  clients_built (trace credential_setup s) = [] /\
  models_built (trace credential_setup s) = [] /\
  stream_calls (trace credential_setup s) = [].
Proof.
  apply silent_projections. apply (built_events _ credential_setup).
  apply built_credential_setup; intros; repeat split.
Qed.

Lemma silent_prints (search_results : list document) :
  clients_built (results_printed search_results) = [] /\
  models_built (results_printed search_results) = [] /\
  stream_calls (results_printed search_results) = [].
Proof.
  apply silent_projections. unfold results_printed.
  induction search_results; cbn; repeat constructor. assumption.
Qed.

(** A completed setup cell. *)
Lemma setup_cell_inv s s' evs tc :
  setup_cell s = (s', evs, Ok tc) ->
  is_Some (environ s' !! "TAVILY_API_KEY") /\
  is_Some (environ s' !! "OPENAI_API_KEY") /\
  clients_built evs = [TavilyClient (environ s' !! "TAVILY_API_KEY")] /\
  models_built evs = [] /\ stream_calls evs = [].
Proof.
  unfold setup_cell. intros H.
  apply bind_inv_Ok in H. destruct H as (sa & eva & [] & ? & Hdot & H & ->).
  apply bind_inv_Ok in H. destruct H as (sb & evb & [] & ? & Hcred & H & ->).
  destruct (silent_credential_setup sa) as (Hc & Hm & Hs).
  unfold trace in Hc, Hm, Hs. rewrite Hcred in Hc, Hm, Hs. cbn [fst snd] in *.
  apply credential_setup_after in Hcred. destruct Hcred as (ST & SO & _).
  run_inv.
  rewrite !clients_built_app, !models_built_app, !stream_calls_app, Hc, Hm, Hs.
  repeat split; first [assumption|reflexivity].
Qed.

(** A completed construction, for the keys and the stream. *)
Lemma construction_keys s s' evs a :
  construction s = (s', evs, Ok a) ->
  let env := environ (final setup_cell s) in
  is_Some (env !! "TAVILY_API_KEY") /\
  is_Some (env !! "OPENAI_API_KEY") /\
  clients_built evs = [TavilyClient (env !! "TAVILY_API_KEY")] /\
  models_built evs =
    [ChatOpenAI "o3-mini-2025-01-31" (env !! "OPENAI_API_KEY");
     ChatOpenAI "gpt-4.1" (env !! "OPENAI_API_KEY")] /\
  agent_model a = ChatOpenAI "gpt-4.1" (env !! "OPENAI_API_KEY") /\
  environ s' = env /\
  stream_calls evs = [].
Proof.
  intros H. cbv zeta. unfold construction in H.
  apply bind_inv_Ok in H. destruct H as (sA & evA & tc & ? & Hsetup & H & ->).
  unfold final. rewrite Hsetup. cbn [fst snd].
  apply setup_cell_inv in Hsetup. destruct Hsetup as (ST & SO & Hc & Hm & Hs).
  unfold vector_store_cell, retriever_cell, tools_cell, models_cell, agent_cell in H.
  run_inv.
  match goal with Henv : environ ?sD = environ sA |- _ => rewrite !Henv end.
  rewrite !clients_built_app, !models_built_app, !stream_calls_app, Hc, Hm, Hs.
  match goal with |- context [results_printed ?rs] =>
    destruct (silent_prints rs) as (-> & -> & ->)
  end.
  repeat split; first [assumption|reflexivity].
Qed.

(** X6. No client without a key.  When the construction completes, the setup
    cell has left both keys in [os.environ]; the Tavily client was given
    the value of [TAVILY_API_KEY], both chat model handles the value of
    [OPENAI_API_KEY], as they stand after the setup cell: none was
    constructed with [None], and no later cell changed [os.environ]. *)
Theorem no_client_without_key s a :
  outcome construction s = Ok a ->
  let env := environ (final setup_cell s) in
  let evs := trace construction s in
  is_Some (env !! "TAVILY_API_KEY") /\
  is_Some (env !! "OPENAI_API_KEY") /\
  clients_built evs = [TavilyClient (env !! "TAVILY_API_KEY")] /\
  models_built evs =
    [ChatOpenAI "o3-mini-2025-01-31" (env !! "OPENAI_API_KEY");
     ChatOpenAI "gpt-4.1" (env !! "OPENAI_API_KEY")] /\
  agent_model a = ChatOpenAI "gpt-4.1" (env !! "OPENAI_API_KEY") /\
  environ (final construction s) = env.
Proof.
  intros H. apply outcome_run in H. destruct H as (s' & evs & H).
  assert (Hf : final construction s = s') by (unfold final; rewrite H; reflexivity).
  assert (Ht : trace construction s = evs) by (unfold trace; rewrite H; reflexivity).
  cbv zeta. rewrite Hf, Ht.
  destruct (construction_keys _ _ _ _ H) as (ST & SO & Hc & Hm & Ha & He & _).
  repeat split; assumption.
Qed.

Lemma final_output_cell_inv message s s' evs x :
  final_output_cell message s = (s', evs, Ok x) ->
  stream_calls evs = [].
Proof.
  unfold final_output_cell. destruct message as [m|]; [|discriminate].
  destruct (content_of m); [|discriminate]. intros H. run_inv. reflexivity.
Qed.

Lemma invoke_cell_inv a question message s s' evs m' :
  invoke_cell a question message s = (s', evs, Ok m') ->
  stream_calls evs = [(a, [HumanMessage question], "values")].
Proof.
  unfold invoke_cell. intros H. apply bind_inv_Ok in H.
  destruct H as (s1 & ev1 & items & ev2 & Hs & Hl & ->).
  apply perform_inv_Ok in Hs. destruct Hs as (_ & _ & -> & ->).
  destruct (stream_loop_shows a (lib_stream a [HumanMessage question] "values" (world s))
              message s1) as (Hcalls & _).
  unfold trace in Hcalls. rewrite Hl in Hcalls. cbn [fst snd] in Hcalls.
  rewrite stream_calls_app, Hcalls. reflexivity.
Qed.

(** X7. The two invocations of a notebook that completes.  [stream] is called
    twice, on the agent the construction returned, each time with
    [stream_mode="values"] and with an input of one message, the question
    of that cell: the second call is not given the messages of the
    first. *)
Theorem two_independent_invocations s :
  outcome notebook s = Ok tt ->
  exists a,
    outcome construction s = Ok a /\
    stream_calls (trace notebook s) =
      [(a, [HumanMessage first_question], "values");
       (a, [HumanMessage second_question], "values")].
Proof.
  intros H. apply outcome_run in H. destruct H as (s' & evs & H).
  unfold trace. rewrite H. cbn [fst snd]. unfold notebook in H.
  apply bind_inv_Ok in H. destruct H as (s1 & ev1 & a & ? & Hc & H & ->).
  apply bind_inv_Ok in H. destruct H as (s2 & ev2 & m1 & ? & Hi1 & H & ->).
  apply bind_inv_Ok in H. destruct H as (s3 & ev3 & [] & ? & Hf1 & H & ->).
  apply bind_inv_Ok in H. destruct H as (s4 & ev4 & m2 & ev5 & Hi2 & Hf2 & ->).
  exists a. split; [unfold outcome; rewrite Hc; reflexivity|].
  destruct (construction_keys _ _ _ _ Hc) as (_ & _ & _ & _ & _ & _ & Hs).
  apply invoke_cell_inv in Hi1, Hi2. apply final_output_cell_inv in Hf1, Hf2.
  rewrite !stream_calls_app, Hs, Hi1, Hi2, Hf1, Hf2. reflexivity.
Qed.

End Together.

Lemma no_client_without_key_witness :
  let s := Demo.start Demo.env_missing_key (Demo.world_at Demo.monday false) in
  clients_built (trace (construction (lib:=Demo.demo_lib)) s) =
    [TavilyClient
       (environ (final (setup_cell (lib:=Demo.demo_lib)) s) !! "TAVILY_API_KEY")].
Proof.
  intros s.
  refine (proj1 (proj2 (proj2
    (no_client_without_key (lib:=Demo.demo_lib) s
       (Demo.demo_agent Demo.monday (Some "sk-from-env")) _)))).
  vm_compute. reflexivity.
Defined.

Lemma two_independent_invocations_witness :
  let s := Demo.start Demo.env_set_up (Demo.world_at Demo.monday false) in
  exists a,
    outcome (construction (lib:=Demo.demo_lib)) s = Ok a /\
    stream_calls (trace (notebook (lib:=Demo.demo_lib)) s) =
      [(a, [HumanMessage first_question], "values");
       (a, [HumanMessage second_question], "values")].
Proof.
  intros s. apply (two_independent_invocations (lib:=Demo.demo_lib) s).
  vm_compute. reflexivity.
Defined.

(** ** Who writes [os.environ] *)

Section EnvironWrites.

Context {W : Type} {lib : Library W}.
Implicit Types (s : state W) (evs : list event).

Lemma env_writes_app evs1 evs2 :
  env_writes (evs1 ++ evs2) = env_writes evs1 ++ env_writes evs2.
Proof. apply omap_app. Qed.

Lemma keeps_ret {A} (a : A) : keeps_environ (ret (W:=W) a).
Proof. intros s. split; reflexivity. Qed.

Lemma keeps_raise {A} (e : exn) : keeps_environ (raise (W:=W) (A:=A) e).
Proof. intros s. split; reflexivity. Qed.

Lemma keeps_perform {A} (c : call) (answer : W -> A) :
  keeps_environ (perform c answer).
Proof.
  intros s. unfold final, trace, perform.
  destruct (lib_raise c (world s)); split; reflexivity.
Qed.

Lemma keeps_environ_get key : keeps_environ (environ_get (W:=W) key).
Proof. intros s. split; reflexivity. Qed.

(** What follows a computation, if it keeps [os.environ], adds nothing
    to what the computation did to it. *)
Lemma bind_then_keeps {A B} (m : M W A) (k : A -> M W B) s :
  (forall a, keeps_environ (k a)) ->
  environ (final (bind m k) s) = environ (final m s) /\
  env_writes (trace (bind m k) s) = env_writes (trace m s).
Proof.
  intros Hk. unfold final, trace, bind.
  destruct (m s) as [[s1 ev1] [a|e]]; cbn [fst snd]; [|auto].
  destruct (Hk a s1) as [He Hw]. unfold final, trace in He, Hw.
  destruct (k a s1) as [[s2 ev2] r]. cbn [fst snd] in *.
  rewrite env_writes_app, Hw, app_nil_r. auto.
Qed.

Lemma keeps_bind {A B} (m : M W A) (k : A -> M W B) :
  keeps_environ m -> (forall a, keeps_environ (k a)) -> keeps_environ (bind m k).
Proof.
  intros Hm Hk s. destruct (bind_then_keeps m k s Hk) as [-> ->]. apply Hm.
Qed.

Lemma keeps_build {A} (inj : A -> object) (a : A) : keeps_environ (build inj a).
Proof. apply keeps_perform. Qed.

Lemma keeps_for_each {A} (xs : list A) (body : A -> M W unit) :
  (forall x, keeps_environ (body x)) -> keeps_environ (for_each xs body).
Proof.
  intros Hbody. induction xs as [|x xs IH]; cbn [for_each].
  - apply keeps_ret.
  - apply keeps_bind; [apply Hbody|intros; apply IH].
Qed.

Lemma keeps_stream_loop a items message :
  keeps_environ (stream_loop a items message).
Proof.
  revert message. induction items as [|snap rest IH]; intros message;
    cbn [stream_loop].
  - apply keeps_perform.
  - apply keeps_bind; [apply keeps_perform|intros _].
    apply keeps_bind.
    { unfold last_message. destruct (last _); [apply keeps_ret|apply keeps_raise]. }
    intros m. apply keeps_bind; [|intros; apply IH].
    destruct (is_tuple m); apply keeps_perform.
Qed.

Lemma keeps_invoke_cell a question message :
  keeps_environ (invoke_cell a question message).
Proof.
  unfold invoke_cell. apply keeps_bind; [apply keeps_perform|intros].
  apply keeps_stream_loop.
Qed.

Lemma keeps_final_output_cell message :
  keeps_environ (final_output_cell (W:=W) message).
Proof.
  unfold final_output_cell. destruct message as [m|]; [|apply keeps_raise].
  destruct (content_of m); [apply keeps_perform|apply keeps_raise].
Qed.

Ltac keeps :=
  repeat first
    [ apply keeps_ret | apply keeps_perform | apply keeps_build
    | apply keeps_environ_get
    | apply keeps_bind; [|intros ?] ].

Lemma keeps_after_setup :
  keeps_environ
    (bind (vector_store_cell (lib:=lib)) (fun vector_store =>
     bind (retriever_cell vector_store) (fun rs =>
     let '(retriever, search_results) := rs in
     bind (print_results_cell search_results) (fun _ =>
     bind (tools_cell retriever) (fun ts =>
     let '(vector_search_tool, search, extract, crawl) := ts in
     bind models_cell (fun ms =>
     let '(o3_mini, gpt_4_1) := ms in
     agent_cell gpt_4_1 search crawl extract vector_search_tool)))))).
Proof.
  apply keeps_bind; [unfold vector_store_cell; keeps|intros v].
  apply keeps_bind; [unfold retriever_cell; keeps|intros [r results]].
  apply keeps_bind.
  { unfold print_results_cell. apply keeps_for_each. intros x.
    apply keeps_bind; [|intros]; apply keeps_perform. }
  intros _. apply keeps_bind; [unfold tools_cell; keeps|intros [[[vt se] ex] cr]].
  apply keeps_bind; [unfold models_cell; keeps|intros [o3 g]].
  unfold agent_cell. keeps.
Qed.

(** The writes of the two credential statements: at most one for each
    key, [TAVILY_API_KEY] first. *)
Lemma credential_setup_writes s :
  sublist (map fst (env_writes (trace credential_setup s)))
          ["TAVILY_API_KEY"; "OPENAI_API_KEY"].
Proof.
  unfold trace. rewrite credential_setup_run, !prompt_if_unset_run.
  destruct (truthy (environ s !! "TAVILY_API_KEY")).
  - rewrite prompt_if_unset_run. destruct (truthy _); cbn.
    + apply sublist_nil_l.
    + destruct (lib_raise _ _); cbn; [apply sublist_nil_l|].
      destruct (environ_set_error _ _); cbn; [apply sublist_nil_l|].
      apply sublist_cons, sublist_skip, sublist_nil_l.
  - destruct (lib_raise _ (world s)); [cbn; apply sublist_nil_l|].
    destruct (environ_set_error _ _); [cbn; apply sublist_nil_l|].
    rewrite prompt_if_unset_run. cbn [environ world].
    destruct (truthy _); cbn.
    + apply sublist_skip, sublist_nil_l.
    + destruct (lib_raise (getpass_call "Enter API key for OpenAI: ") _); cbn.
      * apply sublist_skip, sublist_nil_l.
      * destruct (environ_set_error "OPENAI_API_KEY" _); cbn.
        -- apply sublist_skip, sublist_nil_l.
        -- reflexivity.
Qed.

(** X8. Only the setup cell writes [os.environ].  In every run of the
    notebook, finished or not, the environment at the end is the one the
    setup cell left, and the writes are those of the setup cell: at most
    one to [TAVILY_API_KEY] and then at most one to [OPENAI_API_KEY], made
    by the two credential statements.  The cells that construct the
    handles and the agent, the invocations and the displays read the keys
    and write nothing. *)
Theorem environ_written_by_setup_only s :
  environ (final notebook s) = environ (final setup_cell s) /\
  env_writes (trace notebook s) = env_writes (trace setup_cell s) /\
  sublist (map fst (env_writes (trace notebook s)))
          ["TAVILY_API_KEY"; "OPENAI_API_KEY"] /\
  (forall a question message, keeps_environ (invoke_cell a question message)) /\
  (forall message, keeps_environ (final_output_cell (W:=W) message)).
Proof.
  assert (Hnb : environ (final notebook s) = environ (final construction s) /\
                env_writes (trace notebook s) = env_writes (trace construction s)).
  { unfold notebook. apply bind_then_keeps. intros a.
    apply keeps_bind; [apply keeps_invoke_cell|intros m1].
    apply keeps_bind; [apply keeps_final_output_cell|intros _].
    apply keeps_bind; [apply keeps_invoke_cell|intros m2].
    apply keeps_final_output_cell. }
  assert (Hc : environ (final construction s) = environ (final setup_cell s) /\
               env_writes (trace construction s) = env_writes (trace setup_cell s)).
  { unfold construction. apply bind_then_keeps. intros tc.
    apply keeps_after_setup. }
  destruct Hnb as [-> ->], Hc as [-> ->].
  split; [reflexivity|]. split; [reflexivity|].
  split; [|split; [apply keeps_invoke_cell|apply keeps_final_output_cell]].
  unfold setup_cell, load_dotenv.
  set (rest := fun _ : unit => bind credential_setup _).
  unfold trace, bind at 1 2. unfold perform, update_environ.
  destruct (lib_raise load_dotenv_call (world s)); cbn [fst snd app];
    [apply sublist_nil_l|].
  unfold rest. clear rest.
  match goal with |- context [bind credential_setup ?k ?s1] =>
    destruct (bind_then_keeps credential_setup k s1) as [_ Hw];
      [intros []; keeps|];
    unfold trace in Hw;
    pose proof (credential_setup_writes s1) as Hsub; unfold trace in Hsub;
    destruct (bind credential_setup k s1) as [[s2 ev2] r]
  end.
  cbn [fst snd] in *. change (env_writes (Called load_dotenv_call None :: ev2))
    with (env_writes ev2). rewrite Hw. exact Hsub.
Qed.

End EnvironWrites.

(** ** What the construction prints *)

Section ConstructionOutput.

Context {W : Type} {lib : Library W}.
Implicit Types (s : state W) (evs : list event).

Lemma outputs_app evs1 evs2 : outputs (evs1 ++ evs2) = outputs evs1 ++ outputs evs2.
Proof. apply omap_app. Qed.

Lemma outputs_results_printed (search_results : list document) :
  outputs (results_printed search_results) = result_lines search_results.
Proof.
  unfold results_printed, result_lines.
  induction search_results as [|result rest IH]; cbn; [reflexivity|].
  do 2 f_equal. exact IH.
Qed.

Lemma setup_cell_prints_nothing s : outputs (trace setup_cell s) = [].
Proof.
  assert (H : Forall (fun e => forall o r, e <> Called (console o) r)
                (trace setup_cell s)).
  { apply (built_events _ setup_cell). apply built_setup_cell; intros; discriminate. }
  induction H as [|e evs He _ IH]; [reflexivity|].
  destruct e as [k|k v|c r]; cbn; try exact IH.
  destruct c; try exact IH. exfalso. eapply He. reflexivity.
Qed.

(** X9. Up to the agent, the notebook prints the result of one query and
    nothing else.  When the construction completes, its console output is
    the text of the documents that [retriever.invoke("robotics use case")]
    returned, each followed by a line feed; the query was put to the
    retriever of the collection "crm", in the world as the setup cell and
    the three constructors before it (embeddings, store, retriever) left
    it. *)
Theorem construction_prints_search_results s a :
  outcome construction s = Ok a ->
  let retriever := as_retriever (Chroma "crm" OpenAIEmbeddings "supplemental/db") in
  let w := replay [construct (OEmbeddings OpenAIEmbeddings);
                   construct (OVectorStore (retriever_store retriever));
                   construct (ORetriever retriever)]
                  (world (final setup_cell s)) in
  outputs (trace construction s) =
    result_lines (lib_retrieve retriever "robotics use case" w) /\
  In (retriever_invoke retriever "robotics use case") (calls (trace construction s)).
Proof.
  intros H. apply outcome_run in H. destruct H as (s' & evs & H).
  cbv zeta. unfold trace at 1 2. rewrite H. cbn [fst snd].
  unfold construction in H.
  apply bind_inv_Ok in H. destruct H as (sA & evA & tc & ? & Hsetup & H & ->).
  pose proof (setup_cell_prints_nothing s) as Hout.
  unfold final, trace in *. rewrite Hsetup in *. cbn [fst snd] in *.
  unfold vector_store_cell, retriever_cell, tools_cell, models_cell, agent_cell in H.
  run_inv. split.
  - rewrite !outputs_app, Hout, outputs_results_printed. cbn.
    rewrite app_nil_r. reflexivity.
  - unfold calls. rewrite !omap_app. rewrite !in_app_iff. cbn. auto 10.
Qed.

End ConstructionOutput.

Lemma construction_prints_search_results_witness :
  let s := Demo.start Demo.env_set_up (Demo.world_at Demo.monday false) in
  outputs (trace (construction (lib:=Demo.demo_lib)) s) =
    [print_text "Meeting notes: robotics pilot"; print_text LF].
Proof.
  intros s.
  refine (proj1
    (construction_prints_search_results (lib:=Demo.demo_lib) s
       (Demo.demo_agent Demo.monday (Some "sk-from-env")) _)).
  vm_compute. reflexivity.
Defined.
